(** * BLS API Explorer: a shallow embedding of [app.py]

    The page script is re-executed from top to bottom on every user
    interaction.  One execution is modelled as a computation over the
    session state that also collects the elements drawn on the page and may
    stop early with the exception the script would raise.  What the
    framework's widgets hand back, what the BLS client answers and the
    current date are the inputs of one execution. *)

From stdpp Require Import base strings gmap list sorting.
From Stdlib Require Import ZArith NArith Lia Ascii String DecimalString.

Open Scope string_scope.

(** ** Python strings

    A [str] is a [string] whose characters are code points below 256. *)
Module PyStr.

(** [c.isspace()] for one code point: TAB..CR, FS..US, space, NEL, NBSP. *)
Definition isspace (c : ascii) : bool :=
  let n := nat_of_ascii c in
  ((9 <=? n)%nat && (n <=? 13)%nat) || ((28 <=? n)%nat && (n <=? 32)%nat)
  || (n =? 133)%nat || (n =? 160)%nat.

Fixpoint lstrip (s : string) : string :=
  match s with
  | EmptyString => EmptyString
  | String c s' => if isspace c then lstrip s' else s
  end.

Fixpoint rstrip (s : string) : string :=
  match s with
  | EmptyString => EmptyString
  | String c s' =>
      match rstrip s' with
      | EmptyString => if isspace c then EmptyString else String c EmptyString
      | r => String c r
      end
  end.

(** [s.strip()] *)
Definition strip (s : string) : string := rstrip (lstrip s).

(** Truth value of a string: [bool(s)]. *)
Definition truthy (s : string) : bool :=
  match s with EmptyString => false | String _ _ => true end.

(** [a or b] on strings. *)
Definition or_else (a b : string) : string := if truthy a then a else b.

(** [s.split(sep)] for a separator of one character. *)
Fixpoint split (sep : ascii) (s : string) : list string :=
  match s with
  | EmptyString => [EmptyString]
  | String c s' =>
      if Ascii.eqb c sep then EmptyString :: split sep s'
      else match split sep s' with
           | [] => [String c EmptyString]
           | w :: ws => String c w :: ws
           end
  end.

(** [sep.join(l)] *)
Fixpoint join (sep : string) (l : list string) : string :=
  match l with
  | [] => EmptyString
  | [x] => x
  | x :: l' => x +:+ sep +:+ join sep l'
  end.

(** Whether character [c] occurs in [s]: [c in s]. *)
Fixpoint contains (c : ascii) (s : string) : bool :=
  match s with
  | EmptyString => false
  | String c' s' => Ascii.eqb c' c || contains c s'
  end.

(** [str(n)] for a natural number. *)
Definition str_of_nat (n : nat) : string :=
  NilEmpty.string_of_uint (Nat.to_uint n).

(** The character of the last decimal digit of [n]. *)
Definition digit (n : N) : ascii := ascii_of_N (48 + n mod 10).

(** The [width] lowest decimal digits of [n] put in front of [acc], and
    what is left of [n] above them. *)
Fixpoint low_digits (width : nat) (n : N) (acc : string) : N * string :=
  match width with
  | O => (n, acc)
  | S w => low_digits w (n / 10) (String (digit n) acc)
  end.

(** [n] in decimal, padded with zeros to at least [width] digits: C's
    ["%0<width>d"], which [strftime] uses for [%Y], [%m] and [%d]. *)
Definition zero_padded (width : nat) (n : N) : string :=
  let '(rest, low) := low_digits width n EmptyString in
  (if (rest =? 0)%N then EmptyString
   else NilEmpty.string_of_uint (N.to_uint rest)) +:+ low.

End PyStr.

(** ** Dates: [datetime.today().strftime('%Y-%m-%d')] *)
Record date := Date { year : N; month : N; day : N }.

Definition strftime_Ymd (d : date) : string :=
  PyStr.zero_padded 4 (year d) +:+ "-" +:+
  PyStr.zero_padded 2 (month d) +:+ "-" +:+
  PyStr.zero_padded 2 (day d).

(** ** Tables: the part of [pandas.DataFrame] the script relies on

    A table has named columns, in order, and rows of text cells. *)
Module Pandas.

Record DataFrame := { columns : list string; rows : list (list string) }.

(** [pd.DataFrame()] *)
Definition new : DataFrame := {| columns := []; rows := [] |}.

(** [df.empty]: some axis has length zero. *)
Definition is_empty (df : DataFrame) : bool :=
  match columns df, rows df with
  | [], _ | _, [] => true
  | _, _ => false
  end.

Definition LF : ascii := ascii_of_nat 10.
Definition CR : ascii := ascii_of_nat 13.
Definition DQ : ascii := ascii_of_nat 34.
Definition comma : ascii := ",".

Definition needs_quote (f : string) : bool :=
  PyStr.contains comma f || PyStr.contains DQ f
  || PyStr.contains LF f || PyStr.contains CR f.

Fixpoint double_quotes (f : string) : string :=
  match f with
  | EmptyString => EmptyString
  | String c f' =>
      if Ascii.eqb c DQ then String DQ (String DQ (double_quotes f'))
      else String c (double_quotes f')
  end.

Definition csv_field (f : string) : string :=
  if needs_quote f
  then String DQ (double_quotes f +:+ String DQ EmptyString)
  else f.

(** One record of the file, without its line terminator. *)
Definition csv_record (fields : list string) : string :=
  PyStr.join "," (csv_field <$> fields).

Definition csv_line (fields : list string) : string :=
  csv_record fields +:+ String LF EmptyString.

Fixpoint concat_lines (ls : list string) : string :=
  match ls with
  | [] => EmptyString
  | l :: ls' => l +:+ concat_lines ls'
  end.

(** [df.to_csv(index=index)] with the other arguments at their defaults:
    [header=True], [columns=None], [sep=','], minimal quoting.  With
    [index=True] the row number is the first field of every record and its
    header is empty. *)
Definition to_csv (index : bool) (df : DataFrame) : string :=
  if index
  then csv_line (EmptyString :: columns df) +:+
       concat_lines (imap (fun i r => csv_line (PyStr.str_of_nat i :: r)) (rows df))
  else csv_line (columns df) +:+ concat_lines (csv_line <$> rows df).

Fixpoint index_of (c : string) (cs : list string) : option nat :=
  match cs with
  | [] => None
  | c' :: cs' => if String.eqb c' c then Some 0%nat else S <$> index_of c cs'
  end.

Fixpoint remove_nth {A} (i : nat) (l : list A) : list A :=
  match i, l with
  | _, [] => []
  | O, _ :: l' => l'
  | S i', x :: l' => x :: remove_nth i' l'
  end.

(** Dropping one column; [None] is pandas' [KeyError].  Column labels are
    taken to be distinct, as in a table built from a list of records. *)
Definition drop_column (c : string) (df : DataFrame) : option DataFrame :=
  i ← index_of c (columns df);
  Some {| columns := remove_nth i (columns df);
          rows := remove_nth i <$> rows df |}.

(** [df.drop(columns=cs)] *)
Fixpoint drop (cs : list string) (df : DataFrame) : option DataFrame :=
  match cs with
  | [] => Some df
  | c :: cs' => df' ← drop_column c df; drop cs' df'
  end.

(** [df.set_index(c)]: the column moves to the front as the row label. *)
Definition set_index (c : string) (df : DataFrame) : option DataFrame :=
  i ← index_of c (columns df);
  Some {| columns := c :: remove_nth i (columns df);
          rows := (fun r => default EmptyString (r !! i) :: remove_nth i r) <$> rows df |}.

End Pandas.

(** ** Data of the application *)

(** One entry of [metadata['series']]: [series['id']] is always there,
    [series.get('title', '')] may be missing. *)
Record series_t := { id : string; title : option string }.

(** What [get_survey_metadata] returns. *)
Record metadata_t := {
  survey_description : string;
  survey_minimum_year : Z;
  survey_maximum_year : Z;
  data_preview : Pandas.DataFrame;
  series : list series_t
}.

(** A Python object that may or may not be a [pd.DataFrame]. *)
Inductive pyobj :=
| Frame (df : Pandas.DataFrame)
| NotAFrame.

(** The dictionary stored under [st.session_state["bls_params"]]. *)
Record params_t := {
  p_seriesids : list string;
  p_startyear : Z;
  p_endyear : Z;
  p_registrationkey : string;
  p_survey_name : string;
  p_survey : string
}.

(** [st.session_state]: each key is absent ([None]) or holds a value. *)
Record session_state := {
  user_registrationkey : option string;
  bls_data : option pyobj;
  bls_log : option Pandas.DataFrame;
  bls_params : option params_t;
  show_balloons : option bool
}.

(** The session at process start. *)
Definition fresh_session : session_state :=
  {| user_registrationkey := None; bls_data := None; bls_log := None;
     bls_params := None; show_balloons := None |}.

Definition set_user_registrationkey (v : string) (s : session_state) :=
  {| user_registrationkey := Some v; bls_data := bls_data s; bls_log := bls_log s;
     bls_params := bls_params s; show_balloons := show_balloons s |}.
Definition set_bls_data (v : pyobj) (s : session_state) :=
  {| user_registrationkey := user_registrationkey s; bls_data := Some v;
     bls_log := bls_log s; bls_params := bls_params s;
     show_balloons := show_balloons s |}.
Definition set_bls_log (v : Pandas.DataFrame) (s : session_state) :=
  {| user_registrationkey := user_registrationkey s; bls_data := bls_data s;
     bls_log := Some v; bls_params := bls_params s;
     show_balloons := show_balloons s |}.
Definition set_bls_params (v : params_t) (s : session_state) :=
  {| user_registrationkey := user_registrationkey s; bls_data := bls_data s;
     bls_log := bls_log s; bls_params := Some v;
     show_balloons := show_balloons s |}.
Definition set_show_balloons (v : bool) (s : session_state) :=
  {| user_registrationkey := user_registrationkey s; bls_data := bls_data s;
     bls_log := bls_log s; bls_params := bls_params s;
     show_balloons := Some v |}.

(** What stays the same for the life of the process: the secrets file and
    the two memoized loaders of the BLS client ([None]: the client raises). *)
Record env := {
  secrets : gmap string string;
  get_surveys : option (gmap string string);
  get_survey_metadata : string -> option metadata_t
}.

(** [st.secrets.get(key)]; [None] when the key is not configured. *)
Definition secrets_get (e : env) (key : string) : option string :=
  secrets e !! key.
Arguments secrets_get : simpl never.

(** What one execution of the script receives: what the user did to each
    widget ([None]: left untouched, the widget hands back its default), the
    answer of [get_bls_data(seriesids, catalog=True, startyear, endyear,
    registrationkey, return_logs=True)] ([None]: the client raises) and the
    current date.  For the key field [ev_key] is what [st.text_input] hands
    back; how that comes about from what the user enters is the matter of
    [visit] below. *)
Record event := {
  ev_survey : option string;
  ev_key : option string;
  ev_years : option (Z * Z);
  ev_selected : option (list string);
  ev_submit : bool;
  get_bls_data : list string -> Z -> Z -> string -> option (pyobj * Pandas.DataFrame);
  today : date
}.

(** The variable parts of the two code examples of [display_code]. *)
Record data_snippet := {
  ds_seriesids : list string;
  ds_startyear : Z;
  ds_endyear : Z;
  ds_registrationkey : string
}.
Record metadata_snippet := {
  ms_survey_name : string;
  ms_registrationkey : string
}.

(** What the script draws on the page. *)
Inductive element :=
| PageConfig
| Style
| AppHeader
| Sidebar
| Heading (text : string)
| Selectbox (options : list string)
| Description (text : string)
| Dataframe (df : Pandas.DataFrame)
| TextInput (value : string)
| Slider (min_value max_value : Z) (value : Z * Z)
| Multiselect (options : list string) (default : list string)
| SubmitButton
| Spinner
| LogTable (log : Pandas.DataFrame)
| Balloons
| SuccessBanner
| DataTable (data : pyobj)
| DownloadButton (data : string) (file_name : string) (mime : string)
| CodeData (c : data_snippet)
| CodeMetadata (c : metadata_snippet)
| LicenseText.

Inductive exn :=
| KeyError
| IndexError
| AttributeError
| ClientError.

(** ** The script monad: session state, page output, exceptions *)
Record outcome (A : Type) := Outcome {
  final : session_state;
  page : list element;
  result : exn + A
}.
Arguments Outcome {A} _ _ _.
Arguments final {A} _.
Arguments page {A} _.
Arguments result {A} _.

Definition script (A : Type) : Type := session_state -> outcome A.

#[global] Instance script_ret : MRet script :=
  fun A a s => Outcome s [] (inr a).

#[global] Instance script_bind : MBind script :=
  fun A B f m s =>
    let r := m s in
    match result r with
    | inl e => Outcome (final r) (page r) (inl e)
    | inr a =>
        let r' := f a (final r) in
        Outcome (final r') (page r ++ page r') (result r')
    end.

Definition get_state : script session_state :=
  fun s => Outcome s [] (inr s).
Definition modify (f : session_state -> session_state) : script unit :=
  fun s => Outcome (f s) [] (inr tt).
Definition emit (x : element) : script unit :=
  fun s => Outcome s [x] (inr tt).
Definition raise {A} (e : exn) : script A :=
  fun s => Outcome s [] (inl e).
Definition from_option {A} (e : exn) (o : option A) : script A :=
  match o with Some a => mret a | None => raise e end.

(** [st.session_state[key]] *)
Definition session_item {A} (key : session_state -> option A) : script A :=
  s ← get_state; from_option KeyError (key s).

(** A widget hands back the user's choice, or its default when untouched. *)
Definition widget_value {A} (default_value : A) (user : option A) : A :=
  default default_value user.

(** ** The functions of [app.py] *)

(** [load_surveys]: memoized, so the same mapping on every execution. *)
Definition load_surveys (e : env) : script (gmap string string) :=
  from_option ClientError (get_surveys e).

Definition configure_user_interface : script unit :=
  emit PageConfig;; emit Style.

Definition display_app_header : script unit :=
  emit AppHeader.

Definition create_sidebar : script unit :=
  emit Sidebar.

(** [sorted(list(datasets.keys()))] *)
Definition sorted_keys (datasets : gmap string string) : list string :=
  merge_sort (fun a b => Is_true (String.leb a b)) (map_to_list datasets).*1.

(** [st.selectbox(label, options, index=0)]: with no option to choose from
    it hands back Python's [None]. *)
Definition st_selectbox (options : list string) (user : option string)
  : script (option string) :=
  emit (Selectbox options);;
  mret (match user with Some a => Some a | None => head options end).

Definition create_survey_picklist (ev : event) (datasets : gmap string string)
  : script (string * string) :=
  emit (Heading "Explore Datasets");;
  let options_survey := sorted_keys datasets in
  survey ← st_selectbox options_survey (ev_survey ev);
  survey_name ← from_option KeyError (survey ≫= (datasets !!.));
  mret (default EmptyString survey, survey_name).

Definition display_description (description : string) : script unit :=
  emit (Heading "Dataset Description");;
  emit (Description description).

Definition display_data_preview (metadata : metadata_t) : script unit :=
  emit (Heading "Data Preview:");;
  dataset_preview ← from_option KeyError
    (Pandas.drop ["survey_name"; "survey_abbreviation"] (data_preview metadata));
  dataset_preview ← from_option KeyError (Pandas.set_index "series_id" dataset_preview);
  emit (Dataframe dataset_preview).

(** [f"{series_id}: {title}"] *)
Definition picklist_entry (series_id title : string) : string :=
  series_id +:+ ": " +:+ title.

Definition prepare_series_picklist (metadata : metadata_t) : list string :=
  let series_ids := id <$> series metadata in
  let series_titles := (fun s => default EmptyString (title s)) <$> series metadata in
  (fun '(series_id, title) => picklist_entry series_id title)
    <$> zip series_ids series_titles.

Definition st_text_input (value : string) (user : option string) : script string :=
  emit (TextInput value);; mret (widget_value value user).

Definition st_slider (min_value max_value : Z) (value : Z * Z) (user : option (Z * Z))
  : script (Z * Z) :=
  emit (Slider min_value max_value value);; mret (widget_value value user).

Definition st_multiselect (options default_sel : list string)
    (user : option (list string)) : script (list string) :=
  emit (Multiselect options default_sel);; mret (widget_value default_sel user).

Definition st_form_submit_button (user : bool) : script bool :=
  emit SubmitButton;; mret user.

(** [series_id.split(':')[0]] *)
Definition raw_series_id (entry : string) : option string :=
  PyStr.split ":" entry !! 0%nat.

Definition display_api_query_builder (e : env) (ev : event)
    (series_picklist : list string) (minimum_year maximum_year : Z)
  : script (bool * string * Z * Z * list string) :=
  emit (Heading "API Query Builder: Build Your Own Request");;
  let demo_registrationkey := default EmptyString (secrets_get e "bls_api_key") in
  s ← get_state;
  (if user_registrationkey s is None
   then modify (set_user_registrationkey EmptyString) else mret tt);;
  stored ← session_item user_registrationkey;
  entry ← st_text_input stored (ev_key ev);
  stored ← session_item user_registrationkey;
  (if PyStr.truthy (PyStr.strip entry) && negb (String.eqb (PyStr.strip entry) stored)
   then modify (set_user_registrationkey (PyStr.strip entry)) else mret tt);;
  stored ← session_item user_registrationkey;
  let registrationkey := PyStr.or_else stored demo_registrationkey in
  year_range ← st_slider minimum_year maximum_year
                 ((maximum_year - 5)%Z, maximum_year) (ev_years ev);
  let startyear := year_range.1 in
  let endyear := year_range.2 in
  first ← from_option IndexError (series_picklist !! 0%nat);
  selected_seriesids ← st_multiselect series_picklist [first] (ev_selected ev);
  submit_button ← st_form_submit_button (ev_submit ev);
  seriesids ← from_option IndexError (mapM raw_series_id selected_seriesids);
  mret (submit_button, registrationkey, startyear, endyear, seriesids).

Definition display_output (ev : event) (data : pyobj) (log : Pandas.DataFrame)
    (survey : string) : script unit :=
  if negb (Pandas.is_empty log) then emit (LogTable log)
  else
    s ← get_state;
    (if default false (show_balloons s)
     then emit Balloons;; modify (set_show_balloons false)
     else mret tt);;
    emit SuccessBanner;;
    emit (Heading "Output:");;
    emit (DataTable data);;
    match data with
    | Frame df =>
        let csv_data := Pandas.to_csv false df in
        let todays_date := strftime_Ymd (today ev) in
        emit (DownloadButton csv_data (todays_date +:+ " " +:+ survey +:+ ".csv")
                             "text/csv")
    | NotAFrame => mret tt
    end.

(** [data.empty]; anything but a table has no such attribute. *)
Definition py_empty (data : pyobj) : script bool :=
  match data with
  | Frame df => mret (Pandas.is_empty df)
  | NotAFrame => raise AttributeError
  end.

Definition display_code (e : env) (data : pyobj) (seriesids : list string)
    (startyear endyear : Z) (registrationkey survey_name : string) : script unit :=
  is_empty ← py_empty data;
  if negb is_empty then
    emit (Heading "Python Code:");;
    let api_key_to_show :=
      if bool_decide (Some registrationkey = secrets_get e "bls_api_key")
      then "your_api_key" else registrationkey in
    emit (CodeData {| ds_seriesids := seriesids; ds_startyear := startyear;
                      ds_endyear := endyear;
                      ds_registrationkey := api_key_to_show |});;
    emit (CodeMetadata {| ms_survey_name := survey_name;
                          ms_registrationkey := api_key_to_show |});;
    emit LicenseText
  else mret tt.

(** [load_metadata], local to [main]: memoized per survey name. *)
Definition load_metadata (e : env) (survey : string) : script metadata_t :=
  from_option ClientError (get_survey_metadata e survey).

(** [main], lines 392-415: the page down to the query builder.  It hands on
    whether the form was submitted and the six values a submission stores. *)
Definition collect_request (e : env) (ev : event) : script (bool * params_t) :=
  configure_user_interface;;
  display_app_header;;
  create_sidebar;;
  survey ← load_surveys e;
  '(survey, survey_name) ← create_survey_picklist ev survey;
  metadata ← load_metadata e survey_name;
  display_description (survey_description metadata);;
  let minimum_year := survey_minimum_year metadata in
  let maximum_year := survey_maximum_year metadata in
  display_data_preview metadata;;
  let series_picklist := prepare_series_picklist metadata in
  '(submitted, registrationkey, startyear, endyear, seriesids) ←
    display_api_query_builder e ev series_picklist minimum_year maximum_year;
  mret (submitted,
        {| p_seriesids := seriesids; p_startyear := startyear;
           p_endyear := endyear; p_registrationkey := registrationkey;
           p_survey_name := survey_name; p_survey := survey |}).

(** [main], lines 417-441: handling of a submission. *)
Definition handle_submission (ev : event) (submitted : bool) (p : params_t)
  : script unit :=
  if submitted then
    emit Spinner;;
    '(data, log) ← from_option ClientError
        (get_bls_data ev (p_seriesids p) (p_startyear p) (p_endyear p)
           (p_registrationkey p));
    modify (set_bls_data data);;
    modify (set_bls_log log);;
    modify (set_bls_params p);;
    modify (set_show_balloons true)
  else mret tt.

(** [main], lines 443-457: display of what the session holds. *)
Definition display_results (e : env) (ev : event) : script unit :=
  s ← get_state;
  match bls_data s with
  | Some (Frame _) =>
      data ← session_item bls_data;
      let log := default Pandas.new (bls_log s) in
      bls_params0 ← session_item bls_params;
      display_output ev data log (p_survey bls_params0);;
      data ← session_item bls_data;
      bls_params1 ← session_item bls_params;
      display_code e data (p_seriesids bls_params1) (p_startyear bls_params1)
        (p_endyear bls_params1) (p_registrationkey bls_params1)
        (p_survey_name bls_params1)
  | _ => mret tt
  end.

Definition main (e : env) (ev : event) : script unit :=
  '(submitted, request) ← collect_request e ev;
  handle_submission ev submitted request;;
  display_results e ev.

(** The session after a sequence of executions, oldest first.  What an
    execution wrote before raising stays in the session. *)
Fixpoint run_session (e : env) (evs : list event) (s : session_state)
  : session_state :=
  match evs with
  | [] => s
  | ev :: evs' => run_session e evs' (final (main e ev s))
  end.

(** ** The key field in the browser

    The key field is a [st.text_input] without a [key] of its own, drawn
    inside [st.form] with the remembered key as its [value] (lines 183-197).
    Streamlit tells such a widget from others by its arguments, [value]
    among them, and keeps the text of a widget for the next execution only
    when the running one has drawn it.  The form sends what stands in its
    widgets only when "Get Data" is pressed.  So the execution that follows
    a change of the remembered key draws another field, which holds the
    remembered key, and what was entered into the old one never reaches the
    script. *)
Record key_field := KeyField {
  kf_value : string;   (* the [value] the field was drawn with *)
  kf_text : string     (* the text it hands to the script *)
}.

(** An action of the user sets off one execution.  It is written as an
    [event] whose [ev_key] is the text the user has put into the key field
    on the page ([None]: the field is as the last execution left it); the
    other components are what the other widgets hand back, as before.  The
    text counts with the press of "Get Data" that sends it: an execution set
    off otherwise receives no entry. *)
Definition entry (a : event) : option string :=
  if ev_submit a then ev_key a else None.

(** The field [st.text_input(..., value=value)] finds or makes, given the
    field [b] the last execution has drawn. *)
Definition text_input_field (b : option key_field) (a : event) (value : string)
  : key_field :=
  match b with
  | Some f =>
      if String.eqb (kf_value f) value
      then KeyField value (default (kf_text f) (entry a))
      else KeyField value value
  | None => KeyField value value
  end.

Definition with_key (k : option string) (a : event) : event :=
  {| ev_survey := ev_survey a; ev_key := k; ev_years := ev_years a;
     ev_selected := ev_selected a; ev_submit := ev_submit a;
     get_bls_data := get_bls_data a; today := today a |}.

(** What the script receives when the user does [a], the page showing the
    field [b] and the session being [s]. *)
Definition received (b : option key_field) (s : session_state) (a : event) : event :=
  with_key
    (Some (kf_text (text_input_field b a
                      (default EmptyString (user_registrationkey s))))) a.

Definition draws_key_field (pg : list element) : bool :=
  existsb (fun x => match x with TextInput _ => true | _ => false end) pg.

(** One action of the user: the field on the page and the session after the
    execution it sets off.  An execution that stops before the form leaves
    no key field on the page. *)
Definition visit (e : env) (a : event) (bs : option key_field * session_state)
  : option key_field * session_state :=
  let r := main e (received bs.1 bs.2 a) bs.2 in
  (if draws_key_field (page r)
   then Some (text_input_field bs.1 a
                (default EmptyString (user_registrationkey bs.2)))
   else None,
   final r).

(** A sequence of actions, oldest first, from the field and session [bs]. *)
Fixpoint visits (e : env) (acts : list event)
    (bs : option key_field * session_state) : option key_field * session_state :=
  match acts with
  | [] => bs
  | a :: acts' => visits e acts' (visit e a bs)
  end.

(** The browser opens the page: no field yet, a fresh session. *)
Definition page_opened : option key_field * session_state := (None, fresh_session).

(** ** A sample process, used to run the script on concrete inputs *)
Module Sample.

Definition ce_preview : Pandas.DataFrame :=
  {| Pandas.columns := ["series_id"; "survey_name"; "survey_abbreviation"; "value"];
     Pandas.rows := [["CES0000000001"; "Employment"; "CE"; "159000"]] |}.

Definition ce : metadata_t :=
  {| survey_description := "Current Employment Statistics";
     survey_minimum_year := 1990; survey_maximum_year := 2024;
     data_preview := ce_preview;
     series := [ {| id := "CES0000000001"; title := Some "Total Nonfarm" |};
                 {| id := "CES0500000003"; title := None |} ] |}.

Definition ln : metadata_t :=
  {| survey_description := "Labor Force Statistics";
     survey_minimum_year := 2022; survey_maximum_year := 2024;
     data_preview := ce_preview;
     series := [ {| id := "LNS14000000"; title := Some "Unemployment Rate" |} ] |}.

Definition nb : metadata_t :=
  {| survey_description := "No series yet";
     survey_minimum_year := 2000; survey_maximum_year := 2024;
     data_preview := ce_preview;
     series := [] |}.

Definition process : env :=
  {| secrets := {[ "bls_api_key" := "DEMOKEY" ]};
     get_surveys := Some (<[ "CE" := "Employment" ]>
                         (<[ "LN" := "Labor Force" ]>
                         (<[ "NB" := "Nothing" ]> ∅)));
     get_survey_metadata := fun name =>
       if String.eqb name "Employment" then Some ce
       else if String.eqb name "Labor Force" then Some ln
       else if String.eqb name "Nothing" then Some nb
       else None |}.

Definition table : Pandas.DataFrame :=
  {| Pandas.columns := ["series_id"; "year"; "value"];
     Pandas.rows := [["CES0000000001"; "2024"; "159000"]] |}.

Definition message : Pandas.DataFrame :=
  {| Pandas.columns := ["message"];
     Pandas.rows := [["Series does not exist"]] |}.

(** The client answers with [table] and the log [log]. *)
Definition answering (data : pyobj) (log : Pandas.DataFrame)
  : list string -> Z -> Z -> string -> option (pyobj * Pandas.DataFrame) :=
  fun _ _ _ _ => Some (data, log).

(** A visit that touches nothing. *)
Definition look (d : date) : event :=
  {| ev_survey := None; ev_key := None; ev_years := None; ev_selected := None;
     ev_submit := false; get_bls_data := answering (Frame table) Pandas.new;
     today := d |}.

(** Pressing "Get Data" with every widget left at its default. *)
Definition press (data : pyobj) (log : Pandas.DataFrame) (d : date) : event :=
  {| ev_survey := None; ev_key := None; ev_years := None; ev_selected := None;
     ev_submit := true; get_bls_data := answering data log; today := d |}.

Definition june1 : date := Date 2025 6 1.

End Sample.

(** * Properties *)

(** ** Strings *)
Section Strings.

(** The text before the first occurrence of [c], read off character by
    character; the whole string when [c] does not occur. *)
Fixpoint before_first (c : ascii) (s : string) : string :=
  match s with
  | EmptyString => EmptyString
  | String c' s' => if Ascii.eqb c' c then EmptyString else String c' (before_first c s')
  end.

Lemma split_not_nil sep s : PyStr.split sep s <> [].
Proof.
  induction s as [|c s IH]; simpl; [discriminate|].
  destruct (Ascii.eqb c sep); [discriminate|].
  destruct (PyStr.split sep s); discriminate.
Qed.

Lemma split_head sep s : PyStr.split sep s !! 0%nat = Some (before_first sep s).
Proof.
  induction s as [|c s IH]; simpl; [reflexivity|].
  destruct (Ascii.eqb c sep); [reflexivity|].
  destruct (PyStr.split sep s) as [|w ws] eqn:Hs.
  - exfalso. eapply split_not_nil, Hs.
  - simpl in *. congruence.
Qed.

Lemma before_first_app c a b :
  PyStr.contains c a = false -> before_first c (a +:+ String c b) = a.
Proof.
  induction a as [|x a IH]; simpl; intros H.
  - now rewrite Ascii.eqb_refl.
  - apply orb_false_iff in H as [Hx Ha]. rewrite Hx, IH; auto.
Qed.

Lemma before_first_absent c a :
  PyStr.contains c a = false -> before_first c a = a.
Proof.
  induction a as [|x a IH]; simpl; intros H; [reflexivity|].
  apply orb_false_iff in H as [Hx Ha]. rewrite Hx, IH; auto.
Qed.

Lemma split_absent sep a : PyStr.contains sep a = false -> PyStr.split sep a = [a].
Proof.
  induction a as [|x a IH]; simpl; intros H; [reflexivity|].
  apply orb_false_iff in H as [Hx Ha]. rewrite Hx, IH; auto.
Qed.

Lemma split_app sep a b :
  PyStr.contains sep a = false ->
  PyStr.split sep (a +:+ String sep b) = a :: PyStr.split sep b.
Proof.
  induction a as [|x a IH]; simpl; intros H.
  - now rewrite Ascii.eqb_refl.
  - apply orb_false_iff in H as [Hx Ha]. rewrite Hx, IH; auto.
Qed.

(** Splitting undoes joining when no piece holds the separator. *)
Lemma split_join sep (l : list string) :
  l <> [] ->
  Forall (fun x => PyStr.contains sep x = false) l ->
  PyStr.split sep (PyStr.join (String sep EmptyString) l) = l.
Proof.
  induction l as [|x l IH]; [congruence|]. intros _ Hall.
  apply Forall_cons in Hall as [Hx Hl].
  destruct l as [|y l]; simpl.
  - now apply split_absent.
  - change (PyStr.split sep (x +:+ String sep (PyStr.join (String sep EmptyString) (y :: l)))
            = x :: y :: l).
    rewrite split_app by assumption. f_equal. apply IH; [discriminate|assumption].
Qed.

Lemma raw_series_id_spec entry : raw_series_id entry = Some (before_first ":" entry).
Proof. apply split_head. Qed.

Lemma mapM_raw_series_id sel :
  mapM raw_series_id sel = Some (before_first ":" <$> sel).
Proof.
  apply mapM_Some, Forall2_fmap_r, Forall_Forall2_diag, Forall_forall.
  intros x _. apply raw_series_id_spec.
Qed.

Lemma strip_empty : PyStr.strip EmptyString = EmptyString.
Proof. reflexivity. Qed.

Lemma lstrip_spaces s : forallb PyStr.isspace (list_ascii_of_string s) = true ->
  PyStr.lstrip s = EmptyString.
Proof.
  induction s as [|c s IH]; simpl; [reflexivity|].
  intros H. apply andb_true_iff in H as [Hc Hs]. rewrite Hc. auto.
Qed.

(** A whitespace-only entry strips to the empty string. *)
Lemma strip_spaces s : forallb PyStr.isspace (list_ascii_of_string s) = true ->
  PyStr.strip s = EmptyString.
Proof. intros H. unfold PyStr.strip. now rewrite lstrip_spaces. Qed.

End Strings.

(** ** The script monad *)
Section Monad.
Context {A B : Type}.

Lemma bind_unfold (m : script A) (f : A -> script B) s :
  (m ≫= f) s =
  match result (m s) with
  | inl e => Outcome (final (m s)) (page (m s)) (inl e)
  | inr a => Outcome (final (f a (final (m s))))
               (page (m s) ++ page (f a (final (m s))))
               (result (f a (final (m s))))
  end.
Proof. reflexivity. Qed.

Lemma bind_inr (m : script A) (f : A -> script B) s a :
  result (m s) = inr a ->
  (m ≫= f) s = Outcome (final (f a (final (m s))))
                 (page (m s) ++ page (f a (final (m s))))
                 (result (f a (final (m s)))).
Proof. intros H. rewrite bind_unfold, H. reflexivity. Qed.

Lemma bind_inl (m : script A) (f : A -> script B) s e :
  result (m s) = inl e ->
  (m ≫= f) s = Outcome (final (m s)) (page (m s)) (inl e).
Proof. intros H. rewrite bind_unfold, H. reflexivity. Qed.

(** A sequence that completes has completed its first part. *)
Lemma bind_completes (m : script A) (f : A -> script B) s b :
  result ((m ≫= f) s) = inr b ->
  exists a, result (m s) = inr a /\ result (f a (final (m s))) = inr b.
Proof.
  rewrite bind_unfold. destruct (result (m s)) as [e|a]; simpl; [discriminate|].
  eauto.
Qed.

End Monad.

(** *** Running a script one statement at a time

    Each rule reads off what a sequence does from what its continuation
    does, so that a script is run without unfolding it as a whole. *)
Section Step.
Context {A B : Type}.
Implicit Types (s : session_state) (k : unit -> script A).

Lemma run_emit x k s s' pg r :
  k tt s = Outcome s' pg r -> (emit x ≫= k) s = Outcome s' (x :: pg) r.
Proof. intros H. rewrite bind_unfold. simpl. now rewrite H. Qed.

Lemma run_modify f k s o : k tt (f s) = o -> (modify f ≫= k) s = o.
Proof. intros <-. rewrite bind_unfold. simpl. now destruct (k tt (f s)). Qed.

Lemma run_get_state (k' : session_state -> script A) s o :
  k' s s = o -> (get_state ≫= k') s = o.
Proof. intros <-. rewrite bind_unfold. simpl. now destruct (k' s s). Qed.

Lemma run_ret (b : B) (k' : B -> script A) s o :
  k' b s = o -> (mret b ≫= k') s = o.
Proof. intros <-. rewrite bind_unfold. simpl. now destruct (k' b s). Qed.

Lemma run_raise e (k' : B -> script A) s :
  (raise e ≫= k') s = Outcome s [] (inl e).
Proof. reflexivity. Qed.

Lemma run_session_item (key : session_state -> option B) (k' : B -> script A)
    s b o :
  key s = Some b -> k' b s = o -> (session_item key ≫= k') s = o.
Proof.
  intros Hk <-. rewrite bind_unfold. unfold session_item.
  rewrite bind_unfold. simpl. rewrite Hk. simpl. now destruct (k' b s).
Qed.

Lemma run_assoc {C} (m : script C) (f : C -> script B) (k' : B -> script A) s o :
  (m ≫= fun c => f c ≫= k') s = o -> ((m ≫= f) ≫= k') s = o.
Proof.
  intros <-. rewrite !bind_unfold.
  destruct (result (m s)) as [e|c]; simpl; [reflexivity|].
  rewrite !bind_unfold.
  destruct (result (f c (final (m s)))) as [e|b]; simpl; [reflexivity|].
  now rewrite app_assoc.
Qed.

Lemma run_bind (m : script B) (k' : B -> script A) s s1 pg1 b s2 pg2 r :
  m s = Outcome s1 pg1 (inr b) -> k' b s1 = Outcome s2 pg2 r ->
  (m ≫= k') s = Outcome s2 (pg1 ++ pg2) r.
Proof. intros Hm Hk. rewrite bind_unfold, Hm. simpl. now rewrite Hk. Qed.

(** A script that completes with [a] and leaves the session [s']. *)
Definition ends (m : script A) s s' (a : A) : Prop :=
  result (m s) = inr a /\ final (m s) = s'.

Lemma ends_emit x k s s' a : ends (emit x ≫= k) s s' a -> ends (k tt) s s' a.
Proof. unfold ends. rewrite bind_unfold. simpl. tauto. Qed.

Lemma ends_from_option e (o : option B) (k' : B -> script A) s s' a :
  ends (from_option e o ≫= k') s s' a -> exists b, o = Some b /\ ends (k' b) s s' a.
Proof.
  unfold ends. rewrite bind_unfold. destruct o as [b|]; simpl; [eauto|].
  intros [? _]. discriminate.
Qed.

Lemma ends_bind (m : script B) (k' : B -> script A) s s' a :
  ends (m ≫= k') s s' a ->
  exists b, result (m s) = inr b /\ ends (k' b) (final (m s)) s' a.
Proof.
  unfold ends. rewrite bind_unfold.
  destruct (result (m s)) as [e|b]; simpl; [intros [? _]; discriminate|eauto].
Qed.

Lemma ends_assoc {C} (m : script C) (f : C -> script B) (k' : B -> script A)
    s s' a :
  ends ((m ≫= f) ≫= k') s s' a -> ends (m ≫= fun c => f c ≫= k') s s' a.
Proof.
  unfold ends. intros [Hr Hf].
  rewrite <- (run_assoc m f k' s _ eq_refl). now split.
Qed.

End Step.

Ltac run_step :=
  cbv beta;
  first
    [ apply run_emit
    | apply run_modify
    | apply run_get_state
    | eapply run_session_item; [reflexivity|]
    | apply run_assoc
    | apply run_ret ].

(** ** What a part of the script leaves alone

    [keeps R E m]: running [m] takes the session to one related by [R] and
    draws only elements satisfying [E]. *)
Section Frame.
Context (R : relation session_state) `{!Reflexive R, !Transitive R}.
Context (E : element -> Prop).

Definition keeps {A} (m : script A) : Prop :=
  forall s, R s (final (m s)) /\ Forall E (page (m s)).

Lemma keeps_ret {A} (a : A) : keeps (mret a).
Proof. intros s. split; [reflexivity|constructor]. Qed.

Lemma keeps_raise {A} e : keeps (@raise A e).
Proof. intros s. split; [reflexivity|constructor]. Qed.

Lemma keeps_from_option {A} e (o : option A) : keeps (from_option e o).
Proof. destruct o; [apply keeps_ret|apply keeps_raise]. Qed.

Lemma keeps_get_state : keeps get_state.
Proof. intros s. split; [reflexivity|constructor]. Qed.

Lemma keeps_session_item {A} (key : session_state -> option A) :
  keeps (session_item key).
Proof.
  intros s. unfold session_item. rewrite bind_unfold. simpl.
  destruct (key s); simpl; (split; [reflexivity|constructor]).
Qed.

Lemma keeps_emit x : E x -> keeps (emit x).
Proof. intros Hx s. split; [reflexivity|]. repeat constructor. exact Hx. Qed.

Lemma keeps_modify f : (forall s, R s (f s)) -> keeps (modify f).
Proof. intros Hf s. split; [apply Hf|constructor]. Qed.

Lemma keeps_bind {A B} (m : script A) (f : A -> script B) :
  keeps m -> (forall a, keeps (f a)) -> keeps (m ≫= f).
Proof.
  intros Hm Hf s. rewrite bind_unfold.
  destruct (Hm s) as [Hr He].
  destruct (result (m s)) as [err|a]; simpl; [now split|].
  destruct (Hf a (final (m s))) as [Hr' He']. split.
  - etransitivity; eassumption.
  - apply Forall_app; now split.
Qed.

End Frame.

(** The elements of the result presenter. *)
Definition result_element (x : element) : bool :=
  match x with
  | LogTable _ | Balloons | SuccessBanner | DataTable _ | DownloadButton _ _ _
  | CodeData _ | CodeMetadata _ | LicenseText => true
  | _ => false
  end.

(** Two sessions that agree on everything but the remembered API key. *)
Definition same_results (s s' : session_state) : Prop :=
  bls_data s' = bls_data s /\ bls_log s' = bls_log s /\
  bls_params s' = bls_params s /\ show_balloons s' = show_balloons s.

(** Two sessions that agree on everything but the animation flag. *)
Definition same_store (s s' : session_state) : Prop :=
  bls_data s' = bls_data s /\ bls_log s' = bls_log s /\
  bls_params s' = bls_params s /\
  user_registrationkey s' = user_registrationkey s.

#[local] Instance same_results_refl : Reflexive same_results.
Proof. now intros s. Qed.
#[local] Instance same_results_trans : Transitive same_results.
Proof. intros a b c (?&?&?&?) (?&?&?&?). repeat split; congruence. Qed.
#[local] Instance same_store_refl : Reflexive same_store.
Proof. now intros s. Qed.
#[local] Instance same_store_trans : Transitive same_store.
Proof. intros a b c (?&?&?&?) (?&?&?&?). repeat split; congruence. Qed.

Ltac frame_step :=
  first
    [ apply keeps_bind; [try typeclasses eauto ..| |intros]
    | apply keeps_ret; typeclasses eauto
    | apply keeps_raise; typeclasses eauto
    | apply keeps_from_option; typeclasses eauto
    | apply keeps_get_state; typeclasses eauto
    | apply keeps_session_item; typeclasses eauto
    | apply keeps_emit; [typeclasses eauto|reflexivity]
    | apply keeps_modify; [intros; repeat split] ].

Ltac frame := repeat frame_step.

Section FrontEnd.
Abbreviation quiet := (keeps same_results (fun x => result_element x = false)).

Lemma quiet_query_builder e ev picklist y0 y1 :
  quiet (display_api_query_builder e ev picklist y0 y1).
Proof.
  unfold display_api_query_builder, st_text_input, st_slider, st_multiselect,
    st_form_submit_button.
  repeat first [frame_step | case_match].
Qed.

Lemma quiet_collect_request e ev : quiet (collect_request e ev).
Proof.
  unfold collect_request, configure_user_interface, display_app_header,
    create_sidebar, load_surveys, create_survey_picklist, st_selectbox,
    load_metadata, display_description, display_data_preview.
  repeat first [apply quiet_query_builder | frame_step | case_match].
Qed.

End FrontEnd.

(** The parts of the script are run by the lemmas below, never unfolded by
    simplification. *)
Arguments display_api_query_builder : simpl never.
Arguments collect_request : simpl never.
Arguments handle_submission : simpl never.
Arguments display_output : simpl never.
Arguments display_code : simpl never.
Arguments display_results : simpl never.
Arguments main : simpl never.

(** ** The query builder, run symbolically *)

(** The API key the session remembers once the key field has been read. *)
Definition remembered_key (s : session_state) (ev : event) : string :=
  let stored := default EmptyString (user_registrationkey s) in
  let typed := PyStr.strip (widget_value stored (ev_key ev)) in
  if PyStr.truthy typed && negb (String.eqb typed stored) then typed else stored.

Lemma set_user_registrationkey_twice a b s :
  set_user_registrationkey a (set_user_registrationkey b s)
  = set_user_registrationkey a s.
Proof. reflexivity. Qed.

Lemma set_user_registrationkey_same s k :
  user_registrationkey s = Some k -> set_user_registrationkey k s = s.
Proof. destruct s; simpl. now intros ->. Qed.

(** The key field's first statement: a session without a remembered key
    gets the empty one. *)
Lemma run_init_key {A} (k : unit -> script A) s o :
  k tt (set_user_registrationkey (default EmptyString (user_registrationkey s)) s) = o ->
  ((if user_registrationkey s is None
    then modify (set_user_registrationkey EmptyString) else mret tt) ≫= k) s = o.
Proof.
  intros Hk. destruct (user_registrationkey s) as [k0|] eqn:Hs.
  - apply run_ret. simpl in Hk. now rewrite set_user_registrationkey_same in Hk.
  - apply run_modify. exact Hk.
Qed.

(** The key field's update: the remembered key changes when the condition
    holds. *)
Lemma run_update_key {A} (c : bool) typed stored (k : unit -> script A) s o :
  user_registrationkey s = Some stored ->
  k tt (set_user_registrationkey (if c then typed else stored) s) = o ->
  ((if c then modify (set_user_registrationkey typed) else mret tt) ≫= k) s = o.
Proof.
  intros Hs Hk. destruct c.
  - apply run_modify. exact Hk.
  - apply run_ret. now rewrite set_user_registrationkey_same in Hk.
Qed.

(** Runs the query builder down to the year slider. *)
Ltac run_key_and_years :=
  unfold display_api_query_builder, st_text_input, st_slider;
  apply run_emit; cbv zeta; apply run_get_state; apply run_init_key;
  (eapply run_session_item; [reflexivity|]); cbv beta;
  apply run_assoc, run_emit, run_ret;
  (eapply run_session_item; [reflexivity|]); cbv beta;
  (eapply run_update_key; [reflexivity|]);
  (eapply run_session_item; [reflexivity|]); cbv beta zeta;
  apply run_assoc, run_emit, run_ret.

Lemma query_builder_run e ev first rest y0 y1 s :
  display_api_query_builder e ev (first :: rest) y0 y1 s =
  Outcome (set_user_registrationkey (remembered_key s ev) s)
    [ Heading "API Query Builder: Build Your Own Request";
      TextInput (default EmptyString (user_registrationkey s));
      Slider y0 y1 ((y1 - 5)%Z, y1);
      Multiselect (first :: rest) [first];
      SubmitButton ]
    (inr (ev_submit ev,
          PyStr.or_else (remembered_key s ev)
            (default EmptyString (secrets_get e "bls_api_key")),
          (widget_value ((y1 - 5)%Z, y1) (ev_years ev)).1,
          (widget_value ((y1 - 5)%Z, y1) (ev_years ev)).2,
          before_first ":" <$> widget_value [first] (ev_selected ev))).
Proof.
  run_key_and_years.
  unfold st_multiselect, st_form_submit_button.
  apply run_ret, run_assoc, run_emit, run_ret, run_assoc, run_emit, run_ret.
  rewrite mapM_raw_series_id. reflexivity.
Qed.

Lemma query_builder_no_series e ev y0 y1 s :
  display_api_query_builder e ev [] y0 y1 s =
  Outcome (set_user_registrationkey (remembered_key s ev) s)
    [ Heading "API Query Builder: Build Your Own Request";
      TextInput (default EmptyString (user_registrationkey s));
      Slider y0 y1 ((y1 - 5)%Z, y1) ]
    (inl IndexError).
Proof. run_key_and_years. reflexivity. Qed.

Lemma handle_submission_run ev submitted p s :
  handle_submission ev submitted p s =
  if submitted then
    match get_bls_data ev (p_seriesids p) (p_startyear p) (p_endyear p)
            (p_registrationkey p) with
    | Some (data, log) =>
        Outcome (set_show_balloons true
                   (set_bls_params p (set_bls_log log (set_bls_data data s))))
          [Spinner] (inr tt)
    | None => Outcome s [Spinner] (inl ClientError)
    end
  else Outcome s [] (inr tt).
Proof.
  unfold handle_submission. destruct submitted; [|reflexivity].
  destruct (get_bls_data ev _ _ _ _) as [[data log]|]; [|reflexivity].
  apply run_emit, run_ret. cbv beta iota.
  apply run_modify, run_modify, run_modify. reflexivity.
Qed.

(** What [display_output] draws for a table [df]. *)
Definition output_page (ev : event) (df : Pandas.DataFrame) (log : Pandas.DataFrame)
    (survey : string) (flag : bool) : list element :=
  if Pandas.is_empty log then
    (if flag then [Balloons] else []) ++
    [ SuccessBanner; Heading "Output:"; DataTable (Frame df);
      DownloadButton (Pandas.to_csv false df)
        (strftime_Ymd (today ev) +:+ " " +:+ survey +:+ ".csv") "text/csv" ]
  else [LogTable log].

(** What [display_code] draws for a table [df]. *)
Definition code_page (e : env) (df : Pandas.DataFrame) (p : params_t) : list element :=
  if Pandas.is_empty df then []
  else
    let shown :=
      if bool_decide (Some (p_registrationkey p) = secrets_get e "bls_api_key")
      then "your_api_key" else p_registrationkey p in
    [ Heading "Python Code:";
      CodeData {| ds_seriesids := p_seriesids p; ds_startyear := p_startyear p;
                  ds_endyear := p_endyear p; ds_registrationkey := shown |};
      CodeMetadata {| ms_survey_name := p_survey_name p; ms_registrationkey := shown |};
      LicenseText ].

(** The session once [display_output] has consumed the animation flag. *)
Definition flag_consumed (log : Pandas.DataFrame) (s : session_state) : session_state :=
  if Pandas.is_empty log && default false (show_balloons s)
  then set_show_balloons false s else s.

Lemma display_output_run ev df log survey s :
  display_output ev (Frame df) log survey s =
  Outcome (flag_consumed log s)
    (output_page ev df log survey (default false (show_balloons s))) (inr tt).
Proof.
  unfold display_output, output_page, flag_consumed.
  destruct (Pandas.is_empty log); simpl; [|reflexivity].
  apply run_get_state. cbv beta.
  destruct (default false (show_balloons s)); simpl.
  - apply run_assoc, run_emit, run_modify, run_emit, run_emit, run_emit.
    reflexivity.
  - apply run_ret, run_emit, run_emit, run_emit. reflexivity.
Qed.

Lemma display_code_run e df p s :
  display_code e (Frame df) (p_seriesids p) (p_startyear p) (p_endyear p)
    (p_registrationkey p) (p_survey_name p) s =
  Outcome s (code_page e df p) (inr tt).
Proof.
  unfold display_code, code_page, py_empty. apply run_ret. cbv beta.
  destruct (Pandas.is_empty df); [reflexivity|]. simpl.
  apply run_emit. cbv zeta. apply run_emit, run_emit. reflexivity.
Qed.

Lemma session_item_run {A} (key : session_state -> option A) s :
  session_item key s =
  Outcome s [] (match key s with Some a => inr a | None => inl KeyError end).
Proof.
  unfold session_item. apply run_get_state. now destruct (key s).
Qed.

Lemma flag_consumed_store log s : same_store s (flag_consumed log s).
Proof.
  unfold flag_consumed.
  destruct (Pandas.is_empty log && default false (show_balloons s)); now repeat split.
Qed.

Lemma display_results_run e ev s :
  display_results e ev s =
  match bls_data s, bls_params s with
  | Some (Frame df), Some p =>
      let log := default Pandas.new (bls_log s) in
      Outcome (flag_consumed log s)
        (output_page ev df log (p_survey p) (default false (show_balloons s))
         ++ code_page e df p)
        (inr tt)
  | Some (Frame df), None => Outcome s [] (inl KeyError)
  | _, _ => Outcome s [] (inr tt)
  end.
Proof.
  unfold display_results. apply run_get_state. cbv beta.
  destruct (bls_data s) as [[df|]|] eqn:Hd; try (destruct (bls_params s); reflexivity).
  eapply run_session_item; [exact Hd|]. cbv beta zeta.
  destruct (bls_params s) as [p|] eqn:Hp.
  - eapply run_session_item; [exact Hp|]. cbv beta.
    eapply run_bind; [apply display_output_run|].
    destruct (flag_consumed_store (default Pandas.new (bls_log s)) s) as (Hd' & _ & Hp' & _).
    eapply run_session_item; [rewrite Hd'; exact Hd|].
    eapply run_session_item; [rewrite Hp'; exact Hp|].
    apply display_code_run.
  - unfold session_item. apply run_assoc, run_get_state. rewrite Hp. reflexivity.
Qed.

Lemma main_run e ev s :
  main e ev s =
  let r1 := collect_request e ev s in
  match result r1 with
  | inl err => Outcome (final r1) (page r1) (inl err)
  | inr (submitted, p) =>
      let r2 := handle_submission ev submitted p (final r1) in
      match result r2 with
      | inl err => Outcome (final r2) (page r1 ++ page r2) (inl err)
      | inr _ =>
          let r3 := display_results e ev (final r2) in
          Outcome (final r3) (page r1 ++ page r2 ++ page r3) (result r3)
      end
  end.
Proof.
  unfold main. rewrite bind_unfold. cbv zeta.
  destruct (result (collect_request e ev s)) as [err|[submitted p]]; [reflexivity|].
  rewrite bind_unfold.
  destruct (result (handle_submission ev submitted p _)) as [err|[]];
    cbn [final page result]; [reflexivity|].
  now rewrite app_assoc.
Qed.

(** The survey the picker hands back. *)
Definition picked_survey (ev : event) (datasets : gmap string string) : option string :=
  match ev_survey ev with
  | Some a => Some a
  | None => head (sorted_keys datasets)
  end.

(** When the first part of [main] completes, the catalog and the metadata
    were there, and the request is the query builder's answer for the picked
    survey. *)
Lemma collect_request_completes e ev s submitted p :
  result (collect_request e ev s) = inr (submitted, p) ->
  exists datasets metadata,
    get_surveys e = Some datasets /\
    picked_survey ev datasets = Some (p_survey p) /\
    datasets !! p_survey p = Some (p_survey_name p) /\
    get_survey_metadata e (p_survey_name p) = Some metadata /\
    let qb := display_api_query_builder e ev (prepare_series_picklist metadata)
                (survey_minimum_year metadata) (survey_maximum_year metadata) s in
    result qb = inr (submitted, p_registrationkey p, p_startyear p, p_endyear p,
                     p_seriesids p) /\
    final (collect_request e ev s) = final qb.
Proof.
  intros Hres.
  assert (Hends : ends (collect_request e ev) s (final (collect_request e ev s))
                    (submitted, p)) by now split.
  clear Hres. revert Hends. generalize (final (collect_request e ev s)) as s'.
  intros s'.
  unfold collect_request, configure_user_interface, display_app_header,
    create_sidebar, load_surveys, create_survey_picklist, st_selectbox,
    load_metadata, display_description, display_data_preview, picked_survey.
  intros H.
  apply ends_assoc, ends_emit, ends_emit, ends_emit, ends_emit in H.
  apply ends_from_option in H as (datasets & Hs & H).
  apply ends_assoc, ends_emit, ends_assoc, ends_assoc, ends_emit in H.
  apply ends_bind in H as (survey & Hsurvey & H). injection Hsurvey as <-.
  simpl in H. apply ends_assoc, ends_from_option in H as (name & Hname & H).
  apply ends_bind in H as (pair & Hpair & H). injection Hpair as <-.
  simpl in H. apply ends_from_option in H as (metadata & Hmeta & H).
  apply ends_assoc, ends_emit, ends_emit in H.
  apply ends_assoc, ends_emit, ends_assoc, ends_from_option in H as (pv & _ & H).
  apply ends_assoc, ends_from_option in H as (pv' & _ & H). apply ends_emit in H.
  apply ends_bind in H as ([[[[sub key] y0] y1] ids] & Hqb & H).
  destruct H as [Hr Hf]. injection Hr as <- <-. simpl in Hf. subst s'.
  destruct (match ev_survey ev with
            | Some a => Some a
            | None => head (sorted_keys datasets)
            end) as [survey|] eqn:Hpick; [|discriminate].
  simpl in *. exists datasets, metadata. repeat split; assumption.
Qed.

(** ** The query builder: year range, API key, series *)

(** [f"{id}: {title}"] for one entry of the series list, the title empty when
    absent. *)
Definition entry_of (x : series_t) : string :=
  id x +:+ ": " +:+ default EmptyString (title x).

Lemma prepare_series_picklist_entries metadata :
  prepare_series_picklist metadata = entry_of <$> series metadata.
Proof.
  unfold prepare_series_picklist.
  induction (series metadata) as [|x l IH]; simpl; [reflexivity|].
  f_equal. exact IH.
Qed.

(** C4. For a survey whose year bounds are at least five years apart, the
    year slider left untouched hands back exactly [(Y1 - 5, Y1)]: that pair
    is the slider's default, it lies within the slider's bounds, and it is
    the start and end year the query builder returns. *)
Theorem default_year_range_wide e ev picklist (Y0 Y1 : Z) s :
  (Y1 - Y0 >= 5)%Z ->
  ev_years ev = None ->
  picklist <> [] ->
  let r := display_api_query_builder e ev picklist Y0 Y1 s in
  Slider Y0 Y1 ((Y1 - 5)%Z, Y1) ∈ page r /\
  (Y0 <= Y1 - 5 <= Y1)%Z /\
  exists submitted key ids, result r = inr (submitted, key, (Y1 - 5)%Z, Y1, ids).
Proof.
  intros Hwide Hyears Hne r. subst r.
  destruct picklist as [|first rest]; [congruence|].
  rewrite query_builder_run, Hyears. simpl. split; [|split].
  - set_solver.
  - lia.
  - eauto.
Qed.

Lemma default_year_range_wide_witness :
  (2024 - 1990 >= 5)%Z /\
  Slider 1990 2024 (2019%Z, 2024%Z) ∈
    page (display_api_query_builder Sample.process (Sample.look Sample.june1)
            (prepare_series_picklist Sample.ce) 1990 2024 fresh_session) /\
  exists submitted key ids,
    result (display_api_query_builder Sample.process (Sample.look Sample.june1)
              (prepare_series_picklist Sample.ce) 1990 2024 fresh_session)
    = inr (submitted, key, 2019%Z, 2024%Z, ids).
Proof.
  split; [lia|].
  pose proof (default_year_range_wide Sample.process (Sample.look Sample.june1)
                (prepare_series_picklist Sample.ce) 1990 2024 fresh_session)
    as H.
  destruct H as (Hs & _ & Hr); [lia|reflexivity|discriminate|].
  split; [exact Hs|exact Hr].
Defined.

(** The slider's default whatever the bounds: the code never looks at the
    lower bound when it computes it. *)
Lemma default_year_range_any e ev first rest (Y0 Y1 : Z) s :
  ev_years ev = None ->
  exists submitted key ids,
    result (display_api_query_builder e ev (first :: rest) Y0 Y1 s)
    = inr (submitted, key, (Y1 - 5)%Z, Y1, ids).
Proof. intros H. rewrite query_builder_run, H. simpl. eauto. Qed.

(** C2. The survey "LN" of the sample process has years 2022 to 2024, less
    than five apart.  With the slider untouched the query builder draws a
    slider bounded by 2022 and 2024 whose default is [(2019, 2024)], and a
    submission stores 2019 as start year: the default is not clamped to the
    lower bound. *)
Theorem default_year_range_narrow_not_clamped :
  let ev := {| ev_survey := Some "LN"; ev_key := None; ev_years := None;
               ev_selected := None; ev_submit := true;
               get_bls_data := Sample.answering (Frame Sample.table) Pandas.new;
               today := Sample.june1 |} in
  let r := main Sample.process ev fresh_session in
  Slider 2022 2024 (2019%Z, 2024%Z) ∈ page r /\
  (p_startyear <$> bls_params (final r), p_endyear <$> bls_params (final r))
  = (Some 2019%Z, Some 2024%Z) /\
  (2019 < 2022)%Z.
Proof.
  vm_compute. split; [|split; reflexivity].
  repeat first [apply list_elem_of_here | apply list_elem_of_further].
Qed.

(** C10. The query builder needs a series list that is not empty.  With at
    least one series the first picklist entry exists, it is the pre-selected
    entry of the multi-select, and the query builder returns.  With no series
    the lookup of the first entry yields nothing, the query builder stops with
    [IndexError] before the multi-select is drawn, and so does [main] for any
    survey the picker can hand back: whenever [main] completes, the picked
    survey had a series. *)
Theorem series_list_precondition e ev metadata s :
  let picklist := prepare_series_picklist metadata in
  let r := display_api_query_builder e ev picklist
             (survey_minimum_year metadata) (survey_maximum_year metadata) s in
  match series metadata with
  | x :: _ =>
      picklist !! 0%nat = Some (entry_of x) /\
      Multiselect picklist [entry_of x] ∈ page r /\
      exists v, result r = inr v
  | [] =>
      picklist !! 0%nat = None /\
      result r = inl IndexError /\
      (forall options sel, Multiselect options sel ∉ page r)
  end /\
  ((exists err, result (main e ev s) = inl err) \/
   (exists datasets survey name picked,
      get_surveys e = Some datasets /\
      picked_survey ev datasets = Some survey /\
      datasets !! survey = Some name /\
      get_survey_metadata e name = Some picked /\
      series picked <> [])).
Proof.
  intros picklist r. subst picklist r. split.
  - rewrite prepare_series_picklist_entries.
    destruct (series metadata) as [|x l]; cbn [fmap list_fmap].
    + rewrite query_builder_no_series. simpl. split; [reflexivity|].
      split; [reflexivity|]. intros options sel Hin.
      repeat (apply elem_of_cons in Hin as [Hin|Hin]; [discriminate|]).
      now apply elem_of_nil in Hin.
    + rewrite query_builder_run. simpl. split; [reflexivity|]. split; [|eauto].
      do 3 apply list_elem_of_further. apply list_elem_of_here.
  - rewrite main_run. cbv zeta.
    destruct (result (collect_request e ev s)) as [err|[submitted p]] eqn:Hc;
      [left; eauto|].
    apply collect_request_completes in Hc
      as (datasets & picked & Hs & Hp & Hn & Hm & Hq & _).
    destruct (series picked) as [|x l] eqn:Hser.
    + exfalso. rewrite prepare_series_picklist_entries, Hser in Hq.
      cbn [fmap list_fmap] in Hq.
      rewrite query_builder_no_series in Hq. discriminate.
    + right. exists datasets, (p_survey p), (p_survey_name p), picked.
      rewrite Hser. repeat split; try assumption. discriminate.
Qed.

(** C5. The picklist holds ["{id}: {title}"] for each series in order, the
    title empty when absent.  Whatever entries the multi-select hands back,
    the series ids the query builder returns are the text before the first
    colon of each entry, in the order of the selection; an entry built from a
    series whose id holds no colon gives back that id, whatever the title
    holds, so a selection built from such series gives back their ids. *)
Theorem series_ids_of_selection e ev metadata (Y0 Y1 : Z) s :
  series metadata <> [] ->
  let picklist := prepare_series_picklist metadata in
  let r := display_api_query_builder e ev picklist Y0 Y1 s in
  picklist = entry_of <$> series metadata /\
  (exists first submitted key y0 y1,
     picklist !! 0%nat = Some first /\
     result r = inr (submitted, key, y0, y1,
                     before_first ":" <$> widget_value [first] (ev_selected ev))) /\
  (forall x : series_t,
     PyStr.contains ":" (id x) = false -> raw_series_id (entry_of x) = Some (id x)) /\
  (forall chosen : list series_t,
     Forall (fun x => PyStr.contains ":" (id x) = false) chosen ->
     ev_selected ev = Some (entry_of <$> chosen) ->
     exists submitted key y0 y1,
       result r = inr (submitted, key, y0, y1, id <$> chosen)).
Proof.
  intros Hne picklist r. subst picklist r.
  rewrite prepare_series_picklist_entries.
  destruct (series metadata) as [|x l]; [congruence|]. cbn [fmap list_fmap].
  rewrite query_builder_run. simpl.
  assert (Hid : forall y : series_t, PyStr.contains ":" (id y) = false ->
                  before_first ":" (entry_of y) = id y).
  { intros y Hy. unfold entry_of. simpl. now apply before_first_app. }
  split; [reflexivity|]. split; [|split].
  - exists (entry_of x). eauto 10.
  - intros y Hy. rewrite raw_series_id_spec. f_equal. now apply Hid.
  - intros chosen Hall Hsel. rewrite Hsel. simpl.
    exists (ev_submit ev). do 3 eexists. do 2 f_equal.
    rewrite <- list_fmap_compose. apply Forall_fmap_ext_1.
    eapply Forall_impl; [exact Hall|]. intros y Hy. simpl. now apply Hid.
Qed.

Lemma series_ids_of_selection_witness :
  let metadata :=
    {| survey_description := "Labor Force Statistics";
       survey_minimum_year := 1948; survey_maximum_year := 2024;
       data_preview := Sample.ce_preview;
       series := [ {| id := "CES0000000001"; title := Some "Total Nonfarm" |};
                   {| id := "LNS14000000"; title := Some "Unemployment Rate" |};
                   {| id := "LNS11300000"; title := Some "Rate: participation" |} ] |} in
  let ev :=
    {| ev_survey := None; ev_key := None; ev_years := None;
       ev_selected := Some ["LNS14000000: Unemployment Rate";
                            "CES0000000001: Total Nonfarm"];
       ev_submit := true;
       get_bls_data := Sample.answering (Frame Sample.table) Pandas.new;
       today := Sample.june1 |} in
  series metadata <> [] /\
  prepare_series_picklist metadata
  = ["CES0000000001: Total Nonfarm"; "LNS14000000: Unemployment Rate";
     "LNS11300000: Rate: participation"] /\
  raw_series_id "LNS11300000: Rate: participation" = Some "LNS11300000" /\
  exists submitted key y0 y1,
    result (display_api_query_builder Sample.process ev
              (prepare_series_picklist metadata) 1948 2024 fresh_session)
    = inr (submitted, key, y0, y1, ["LNS14000000"; "CES0000000001"]).
Proof.
  intros metadata ev.
  assert (Hne : series metadata <> []) by discriminate.
  destruct (series_ids_of_selection Sample.process ev metadata 1948 2024
              fresh_session Hne) as (Hpick & _ & Hone & Hsel).
  split; [exact Hne|]. split; [exact Hpick|]. split.
  - apply (Hone {| id := "LNS11300000"; title := Some "Rate: participation" |}).
    reflexivity.
  - apply (Hsel [ {| id := "LNS14000000"; title := Some "Unemployment Rate" |};
                  {| id := "CES0000000001"; title := Some "Total Nonfarm" |} ]).
    + repeat constructor.
    + reflexivity.
Defined.

(** ** The API key *)

(** Pressing or not pressing "Get Data" with [entry] in the key field. *)
Definition typing (entry : string) (submit : bool) : event :=
  {| ev_survey := None; ev_key := Some entry; ev_years := None;
     ev_selected := None; ev_submit := submit;
     get_bls_data := Sample.answering (Frame Sample.table) Pandas.new;
     today := Sample.june1 |}.

(** The remembered key is the text the key field hands back, trimmed, or
    what was stored before when that is empty. *)
Lemma remembered_key_spec s ev :
  let stored := default EmptyString (user_registrationkey s) in
  let typed := PyStr.strip (widget_value stored (ev_key ev)) in
  remembered_key s ev = if PyStr.truthy typed then typed else stored.
Proof.
  intros stored typed. subst typed stored. unfold remembered_key. cbv zeta.
  destruct (PyStr.strip _) as [|c t]; [reflexivity|].
  cbn [PyStr.truthy andb].
  destruct (String.eqb_spec (String c t) (default EmptyString (user_registrationkey s)))
    as [<-|_]; reflexivity.
Qed.

(** ** One execution of [main], by cases *)

Lemma collect_request_submitted e ev s submitted p :
  result (collect_request e ev s) = inr (submitted, p) -> submitted = ev_submit ev.
Proof.
  intros Hc. apply collect_request_completes in Hc
    as (datasets & metadata & _ & _ & _ & _ & Hq & _).
  destruct (prepare_series_picklist metadata) as [|first rest].
  - rewrite query_builder_no_series in Hq. discriminate.
  - rewrite query_builder_run in Hq. simpl in Hq. congruence.
Qed.

(** The session a successful submission leaves for the result presenter. *)
Definition stored (data : pyobj) (log : Pandas.DataFrame) (p : params_t)
    (s : session_state) : session_state :=
  set_show_balloons true (set_bls_params p (set_bls_log log (set_bls_data data s))).

(** How the session handed to the result presenter relates to the session
    the execution started from. *)
Definition handed_over (e : env) (ev : event) (s s2 : session_state) : Prop :=
  (ev_submit ev = false /\ same_results s s2) \/
  (ev_submit ev = true /\
   exists p data log s1,
     result (collect_request e ev s) = inr (true, p) /\
     get_bls_data ev (p_seriesids p) (p_startyear p) (p_endyear p)
       (p_registrationkey p) = Some (data, log) /\
     same_results s s1 /\
     s2 = stored data log p s1).

Abbreviation no_result_element := (Forall (fun x => result_element x = false)).

(** An execution either stops before the result presenter, having drawn no
    result element and left the stored results alone, or it is the result
    presenter run after the page down to the form. *)
Lemma main_cases e ev s :
  let r := main e ev s in
  (exists err, result r = inl err /\ no_result_element (page r) /\
               same_results s (final r)) \/
  (exists pre s2,
     no_result_element pre /\ handed_over e ev s s2 /\
     page r = (pre ++ page (display_results e ev s2))%list /\
     final r = final (display_results e ev s2) /\
     result r = result (display_results e ev s2)).
Proof.
  cbv zeta. rewrite main_run. cbv zeta.
  destruct (quiet_collect_request e ev s) as [Hsame Hquiet].
  destruct (result (collect_request e ev s)) as [err|[submitted p]] eqn:Hc.
  { left. exists err. cbn [final page result]. split; [reflexivity|split; assumption]. }
  pose proof (collect_request_submitted _ _ _ _ _ Hc) as ->.
  rewrite handle_submission_run.
  destruct (ev_submit ev) eqn:Hsub.
  - destruct (get_bls_data ev _ _ _ _) as [[data log]|] eqn:Hapi;
      cbn [final page result].
    + right. exists (page (collect_request e ev s) ++ [Spinner])%list,
        (stored data log p (final (collect_request e ev s))).
      split; [apply Forall_app; split; [assumption|repeat constructor]|].
      split; [|split; [now rewrite <- app_assoc|split; reflexivity]].
      right. split; [exact Hsub|].
      exists p, data, log, (final (collect_request e ev s)).
      split; [exact Hc|]. split; [exact Hapi|]. split; [exact Hsame|reflexivity].
    + left. exists ClientError. split; [reflexivity|]. split; [|assumption].
      apply Forall_app; split; [assumption|repeat constructor].
  - right. exists (page (collect_request e ev s)), (final (collect_request e ev s)).
    cbn [final page result]. split; [assumption|].
    split; [left; split; [exact Hsub|exact Hsame]|].
    split; [reflexivity|split; reflexivity].
Qed.

(** ** The result presenter *)

Lemma display_results_store e ev s : same_store s (final (display_results e ev s)).
Proof.
  rewrite display_results_run.
  destruct (bls_data s) as [[df|]|]; try reflexivity.
  destruct (bls_params s); simpl; [apply flag_consumed_store|reflexivity].
Qed.

(** A result element of a page is one drawn by the result presenter. *)
Lemma result_element_drawn x pre pg :
  no_result_element pre -> result_element x = true ->
  x ∈ (pre ++ pg)%list <-> x ∈ pg.
Proof.
  intros Hpre Hx. rewrite elem_of_app. split; [|now right].
  intros [Hin|Hin]; [|assumption].
  rewrite Forall_forall in Hpre. apply Hpre in Hin. congruence.
Qed.

(** Membership in a list written out element by element. *)
Ltac elem_inv H :=
  repeat (apply elem_of_cons in H as [H|H];
          [try discriminate H; try (injection H as ?; subst)|]);
  try (apply elem_of_nil in H; destruct H).

(** What the result presenter is given once an execution has completed with
    a table in the session. *)
Lemma main_presented e ev s df :
  let r := main e ev s in
  result r = inr tt ->
  bls_data (final r) = Some (Frame df) ->
  exists pre s2 p,
    no_result_element pre /\ handed_over e ev s s2 /\
    bls_data s2 = Some (Frame df) /\ bls_log s2 = bls_log (final r) /\
    bls_params s2 = Some p /\ bls_params (final r) = Some p /\
    final r = flag_consumed (default Pandas.new (bls_log s2)) s2 /\
    page r = (pre ++ output_page ev df (default Pandas.new (bls_log s2)) (p_survey p)
                       (default false (show_balloons s2))
                  ++ code_page e df p)%list.
Proof.
  intros r Hres Hdata. subst r.
  destruct (main_cases e ev s)
    as [(err & Herr & _)|(pre & s2 & Hpre & Hover & Hpage & Hfinal & Hresult)];
    [congruence|].
  destruct (display_results_store e ev s2) as (Hd & Hl & Hp & _).
  rewrite <- Hfinal in Hd, Hl, Hp. rewrite Hdata in Hd.
  rewrite Hres in Hresult.
  rewrite display_results_run in Hresult, Hfinal, Hpage.
  rewrite <- Hd in Hresult, Hfinal, Hpage.
  destruct (bls_params s2) as [p|] eqn:Hp2; [|discriminate Hresult].
  cbv zeta in Hfinal, Hpage. cbn [final page result] in Hfinal, Hpage.
  exists pre, s2, p.
  split; [exact Hpre|]. split; [exact Hover|]. split; [now symmetry|].
  split; [now symmetry|]. split; [exact Hp2|]. split; [exact Hp|].
  split; [exact Hfinal|exact Hpage].
Qed.

(** C1, as stated, fails: the client answers a submission with a table and a
    log that are both non-empty.  The page shows the log table and, below
    it, the three code-example panels. *)
Lemma code_panels_beside_log :
  Pandas.is_empty Sample.message = false /\
  Pandas.is_empty Sample.table = false /\
  bls_log (final (main Sample.process
                    (Sample.press (Frame Sample.table) Sample.message Sample.june1)
                    fresh_session)) = Some Sample.message /\
  page (main Sample.process
          (Sample.press (Frame Sample.table) Sample.message Sample.june1)
          fresh_session)
  = [ PageConfig; Style; AppHeader; Sidebar; Heading "Explore Datasets";
      Selectbox ["CE"; "LN"; "NB"]; Heading "Dataset Description";
      Description "Current Employment Statistics"; Heading "Data Preview:";
      Dataframe {| Pandas.columns := ["series_id"; "value"];
                   Pandas.rows := [["CES0000000001"; "159000"]] |};
      Heading "API Query Builder: Build Your Own Request";
      TextInput ""; Slider 1990 2024 (2019%Z, 2024%Z);
      Multiselect ["CES0000000001: Total Nonfarm"; "CES0500000003: "]
        ["CES0000000001: Total Nonfarm"];
      SubmitButton; Spinner;
      LogTable Sample.message;
      Heading "Python Code:";
      CodeData {| ds_seriesids := ["CES0000000001"]; ds_startyear := 2019;
                  ds_endyear := 2024; ds_registrationkey := "your_api_key" |};
      CodeMetadata {| ms_survey_name := "Employment";
                      ms_registrationkey := "your_api_key" |};
      LicenseText ].
Proof. vm_compute. repeat split; reflexivity. Qed.

(** C1, amended.  When an execution completes with a table and a non-empty
    log in the session, the page shows the log table and none of the success
    banner, the balloons, the data table and the CSV download button.  The
    three code-example panels are drawn exactly when the data table is not
    empty, whatever the log holds. *)
Theorem log_state_page e ev s df log :
  let r := main e ev s in
  result r = inr tt ->
  bls_data (final r) = Some (Frame df) ->
  bls_log (final r) = Some log ->
  Pandas.is_empty log = false ->
  LogTable log ∈ page r /\
  (SuccessBanner ∉ page r) /\
  (Balloons ∉ page r) /\
  (forall data, DataTable data ∉ page r) /\
  (forall data name mime, DownloadButton data name mime ∉ page r) /\
  ((exists c, CodeData c ∈ page r) <-> Pandas.is_empty df = false) /\
  ((exists c, CodeMetadata c ∈ page r) <-> Pandas.is_empty df = false) /\
  (LicenseText ∈ page r <-> Pandas.is_empty df = false).
Proof.
  intros r Hres Hdata Hlog Hne.
  destruct (main_presented e ev s df Hres Hdata)
    as (pre & s2 & p & Hpre & _ & _ & Hl & _ & _ & _ & Hpage).
  fold r in Hl, Hpage. rewrite Hl, Hlog in Hpage. simpl in Hpage.
  unfold output_page in Hpage. rewrite Hne in Hpage.
  assert (Hin : forall x, result_element x = true ->
                  x ∈ page r <-> x ∈ LogTable log :: code_page e df p).
  { intros x Hx. rewrite Hpage. now apply result_element_drawn. }
  clear Hpage. unfold code_page in Hin.
  split; [apply Hin; [reflexivity|apply list_elem_of_here]|].
  split; [intros H; apply Hin in H; [|reflexivity];
          destruct (Pandas.is_empty df); elem_inv H|].
  split; [intros H; apply Hin in H; [|reflexivity];
          destruct (Pandas.is_empty df); elem_inv H|].
  split; [intros data H; apply Hin in H; [|reflexivity];
          destruct (Pandas.is_empty df); elem_inv H|].
  split; [intros data name mime H; apply Hin in H; [|reflexivity];
          destruct (Pandas.is_empty df); elem_inv H|].
  split; [|split].
  - split.
    + intros [c H]. apply Hin in H; [|reflexivity].
      destruct (Pandas.is_empty df); [elem_inv H|reflexivity].
    + intros Hdf. rewrite Hdf in Hin. eexists. apply Hin; [reflexivity|].
      do 2 apply list_elem_of_further. apply list_elem_of_here.
  - split.
    + intros [c H]. apply Hin in H; [|reflexivity].
      destruct (Pandas.is_empty df); [elem_inv H|reflexivity].
    + intros Hdf. rewrite Hdf in Hin. eexists. apply Hin; [reflexivity|].
      do 3 apply list_elem_of_further. apply list_elem_of_here.
  - split.
    + intros H. apply Hin in H; [|reflexivity].
      destruct (Pandas.is_empty df); [elem_inv H|reflexivity].
    + intros Hdf. rewrite Hdf in Hin. apply Hin; [reflexivity|].
      do 4 apply list_elem_of_further. apply list_elem_of_here.
Qed.

(** ** The celebratory animation *)

(** How many times the balloons are drawn on a page. *)
Fixpoint balloons_drawn (pg : list element) : nat :=
  match pg with
  | [] => 0
  | Balloons :: pg' => S (balloons_drawn pg')
  | _ :: pg' => balloons_drawn pg'
  end.

Lemma balloons_drawn_app pg pg' :
  balloons_drawn (pg ++ pg') = (balloons_drawn pg + balloons_drawn pg')%nat.
Proof.
  induction pg as [|x pg IH]; [reflexivity|].
  destruct x; simpl; rewrite IH; reflexivity.
Qed.

Lemma balloons_drawn_quiet pre : no_result_element pre -> balloons_drawn pre = 0%nat.
Proof.
  induction 1 as [|x pre Hx _ IH]; [reflexivity|].
  destruct x; simpl in *; try discriminate; exact IH.
Qed.

Lemma balloons_drawn_code e df p : balloons_drawn (code_page e df p) = 0%nat.
Proof. unfold code_page. now destruct (Pandas.is_empty df). Qed.

(** With the flag down the result presenter draws no balloons and leaves the
    flag down. *)
Lemma display_results_idle e ev s :
  show_balloons s = Some false ->
  balloons_drawn (page (display_results e ev s)) = 0%nat /\
  show_balloons (final (display_results e ev s)) = Some false.
Proof.
  intros Hflag. rewrite display_results_run.
  destruct (bls_data s) as [[df|]|]; try (now split).
  destruct (bls_params s) as [p|]; [|now split].
  cbv zeta. cbn [final page]. unfold flag_consumed, output_page.
  rewrite Hflag. cbv beta iota delta [option.from_option Datatypes.id]. rewrite andb_false_r.
  split; [|exact Hflag].
  rewrite balloons_drawn_app, balloons_drawn_code.
  now destruct (Pandas.is_empty _).
Qed.

(** C6. A submission is answered with a table and an empty log.  The
    execution that handles it draws the balloons exactly once and leaves the
    flag down; the next execution without a submission, started from the
    session as that one left it, draws no balloons and leaves the flag
    down. *)
Theorem balloons_once e ev ev' s df log :
  let r := main e ev s in
  let r' := main e ev' (final r) in
  ev_submit ev = true ->
  result r = inr tt ->
  bls_data (final r) = Some (Frame df) ->
  bls_log (final r) = Some log ->
  Pandas.is_empty log = true ->
  ev_submit ev' = false ->
  balloons_drawn (page r) = 1%nat /\
  show_balloons (final r) = Some false /\
  balloons_drawn (page r') = 0%nat /\
  show_balloons (final r') = Some false.
Proof.
  intros r r' Hsub Hres Hdata Hlog Hempty Hsub'.
  destruct (main_presented e ev s df Hres Hdata)
    as (pre & s2 & p & Hpre & Hover & _ & Hl & _ & _ & Hfinal & Hpage).
  fold r in Hl, Hfinal, Hpage. rewrite Hlog in Hl.
  assert (Hflag : show_balloons s2 = Some true).
  { destruct Hover as [[Hno _]|(_ & p0 & d0 & l0 & s1 & _ & _ & _ & ->)];
      [congruence|reflexivity]. }
  rewrite Hl in Hfinal, Hpage. rewrite Hflag in Hpage.
  unfold flag_consumed in Hfinal. unfold output_page in Hpage.
  cbv beta iota delta [option.from_option Datatypes.id] in Hfinal, Hpage.
  rewrite Hempty, Hflag in Hfinal. rewrite Hempty in Hpage.
  cbv beta iota delta [option.from_option Datatypes.id andb] in Hfinal.
  assert (Hdown : show_balloons (final r) = Some false) by now rewrite Hfinal.
  split; [|split; [exact Hdown|]].
  { rewrite Hpage, !balloons_drawn_app, balloons_drawn_quiet by assumption.
    rewrite balloons_drawn_code. reflexivity. }
  subst r'.
  destruct (main_cases e ev' (final r))
    as [(err & _ & Hquiet & Hsame)|(pre' & s2' & Hpre' & Hover' & Hpage' & Hfinal' & _)].
  - split; [now apply balloons_drawn_quiet|].
    destruct Hsame as (_ & _ & _ & ->). exact Hdown.
  - assert (Hflag' : show_balloons s2' = Some false).
    { destruct Hover' as [[_ (_ & _ & _ & ->)]|[Hyes _]]; [exact Hdown|congruence]. }
    destruct (display_results_idle e ev' s2' Hflag') as [Hnone Hstill].
    rewrite Hpage', Hfinal', balloons_drawn_app, balloons_drawn_quiet by assumption.
    now split.
Qed.

Lemma balloons_once_witness :
  ev_submit (Sample.press (Frame Sample.table) Pandas.new Sample.june1) = true /\
  result (main Sample.process (Sample.press (Frame Sample.table) Pandas.new Sample.june1)
            fresh_session) = inr tt /\
  balloons_drawn
    (page (main Sample.process
             (Sample.press (Frame Sample.table) Pandas.new Sample.june1)
             fresh_session)) = 1%nat /\
  balloons_drawn
    (page (main Sample.process (Sample.look Sample.june1)
             (final (main Sample.process
                       (Sample.press (Frame Sample.table) Pandas.new Sample.june1)
                       fresh_session)))) = 0%nat.
Proof.
  assert (Hres : result (main Sample.process
                           (Sample.press (Frame Sample.table) Pandas.new Sample.june1)
                           fresh_session) = inr tt) by (vm_compute; reflexivity).
  destruct (balloons_once Sample.process
              (Sample.press (Frame Sample.table) Pandas.new Sample.june1)
              (Sample.look Sample.june1) fresh_session Sample.table Pandas.new)
    as (Hone & _ & Hnone & _).
  - reflexivity.
  - exact Hres.
  - vm_compute; reflexivity.
  - vm_compute; reflexivity.
  - reflexivity.
  - reflexivity.
  - split; [reflexivity|]. split; [exact Hres|]. split; [exact Hone|exact Hnone].
Defined.

(** ** The code examples *)

Lemma in_code_page e df p x :
  x ∈ code_page e df p ->
  let shown :=
    if bool_decide (Some (p_registrationkey p) = secrets_get e "bls_api_key")
    then "your_api_key" else p_registrationkey p in
  Pandas.is_empty df = false /\
  (x = Heading "Python Code:" \/
   x = CodeData {| ds_seriesids := p_seriesids p; ds_startyear := p_startyear p;
                   ds_endyear := p_endyear p; ds_registrationkey := shown |} \/
   x = CodeMetadata {| ms_survey_name := p_survey_name p;
                       ms_registrationkey := shown |} \/
   x = LicenseText).
Proof.
  unfold code_page. intros H.
  destruct (Pandas.is_empty df); [now apply elem_of_nil in H|].
  cbv zeta in H |- *. split; [reflexivity|].
  repeat (apply elem_of_cons in H as [H|H]; [tauto|]).
  now apply elem_of_nil in H.
Qed.

Lemma in_output_page ev df log survey flag x :
  x ∈ output_page ev df log survey flag ->
  (Pandas.is_empty log = false /\ x = LogTable log) \/
  (Pandas.is_empty log = true /\
   ((flag = true /\ x = Balloons) \/ x = SuccessBanner \/ x = Heading "Output:" \/
    x = DataTable (Frame df) \/
    x = DownloadButton (Pandas.to_csv false df)
          (strftime_Ymd (today ev) +:+ " " +:+ survey +:+ ".csv") "text/csv")).
Proof.
  unfold output_page. intros H. destruct (Pandas.is_empty log).
  - right. split; [reflexivity|]. destruct flag; simpl in H.
    + repeat (apply elem_of_cons in H as [H|H]; [tauto|]).
      now apply elem_of_nil in H.
    + repeat (apply elem_of_cons in H as [H|H]; [tauto|]).
      now apply elem_of_nil in H.
  - left. split; [reflexivity|]. apply elem_of_cons in H as [H|H]; [exact H|].
    now apply elem_of_nil in H.
Qed.

(** A result element on the page of an execution was drawn by the result
    presenter from a table and the parameters the session holds at the end
    of the execution. *)
Lemma result_element_origin e ev s x :
  let r := main e ev s in
  x ∈ page r -> result_element x = true ->
  exists df p log flag,
    bls_data (final r) = Some (Frame df) /\
    bls_params (final r) = Some p /\
    log = default Pandas.new (bls_log (final r)) /\
    (x ∈ output_page ev df log (p_survey p) flag \/ x ∈ code_page e df p).
Proof.
  intros r Hin Hx. subst r.
  destruct (main_cases e ev s)
    as [(err & _ & Hquiet & _)|(pre & s2 & Hpre & _ & Hpage & Hfinal & _)].
  { rewrite Forall_forall in Hquiet. apply Hquiet in Hin. congruence. }
  rewrite Hpage in Hin. apply result_element_drawn in Hin; [|assumption..].
  destruct (display_results_store e ev s2) as (Hd & Hl & Hp & _).
  rewrite <- Hfinal in Hd, Hl, Hp. rewrite Hd, Hp, Hl.
  rewrite display_results_run in Hin.
  destruct (bls_data s2) as [[df|]|]; try (destruct (bls_params s2));
    cbn [page] in Hin; try (now apply elem_of_nil in Hin).
  cbv zeta in Hin. cbn [page] in Hin. apply elem_of_app in Hin.
  eauto 10.
Qed.

(** The API key a code example shows. *)
Definition shown_key (x : element) : option string :=
  match x with
  | CodeData c => Some (ds_registrationkey c)
  | CodeMetadata c => Some (ms_registrationkey c)
  | _ => None
  end.

Lemma shown_key_origin e ev s x k :
  let r := main e ev s in
  x ∈ page r -> shown_key x = Some k ->
  exists p,
    bls_params (final r) = Some p /\
    k = if bool_decide (Some (p_registrationkey p) = secrets_get e "bls_api_key")
        then "your_api_key" else p_registrationkey p.
Proof.
  intros r Hin Hk.
  assert (Hx : result_element x = true) by (destruct x; try discriminate Hk; reflexivity).
  destruct (result_element_origin e ev s x Hin Hx)
    as (df & p & log & flag & _ & Hp & _ & Hwhere).
  exists p. split; [exact Hp|].
  destruct Hwhere as [Hout|Hcode].
  - apply in_output_page in Hout.
    destruct Hout as [[_ ->]|[_ [[_ ->]|[->|[->|[->| ->]]]]]]; discriminate Hk.
  - apply in_code_page in Hcode as [_ Hc]. cbv zeta in Hc.
    destruct Hc as [->|[->|[->| ->]]]; try discriminate Hk;
      cbn [shown_key ds_registrationkey ms_registrationkey] in Hk; congruence.
Qed.

(** C7. Whatever the execution, a key shown in the data-retrieval or in the
    metadata-retrieval example is the placeholder ["your_api_key"] when the
    key stored with the request is the demo key of the process
    configuration, and is the stored key itself when it differs from the
    configured one (also when none is configured). *)
Theorem code_examples_key e ev s shown :
  let r := main e ev s in
  (exists c, CodeData c ∈ page r /\ ds_registrationkey c = shown) \/
  (exists c, CodeMetadata c ∈ page r /\ ms_registrationkey c = shown) ->
  exists p,
    bls_params (final r) = Some p /\
    (secrets_get e "bls_api_key" = Some (p_registrationkey p) ->
     shown = "your_api_key") /\
    (secrets_get e "bls_api_key" <> Some (p_registrationkey p) ->
     shown = p_registrationkey p).
Proof.
  intros r Hshown.
  assert (Hex : exists x, x ∈ page r /\ shown_key x = Some shown).
  { destruct Hshown as [(c & Hin & <-)|(c & Hin & <-)]; eauto. }
  destruct Hex as (x & Hin & Hk).
  destruct (shown_key_origin e ev s x shown Hin Hk) as (p & Hp & ->).
  exists p. split; [exact Hp|]. split.
  - intros Hdemo. rewrite bool_decide_eq_true_2; [reflexivity|now symmetry].
  - intros Hown. rewrite bool_decide_eq_false_2; [reflexivity|].
    intros Heq. now apply Hown.
Qed.

Lemma code_examples_key_witness :
  (exists c,
     CodeData c ∈ page (main Sample.process
                          (Sample.press (Frame Sample.table) Pandas.new Sample.june1)
                          fresh_session) /\
     ds_registrationkey c = "your_api_key") /\
  exists p,
    bls_params (final (main Sample.process
                         (Sample.press (Frame Sample.table) Pandas.new Sample.june1)
                         fresh_session)) = Some p /\
    secrets_get Sample.process "bls_api_key" = Some (p_registrationkey p).
Proof.
  assert (Hin : exists c,
     CodeData c ∈ page (main Sample.process
                          (Sample.press (Frame Sample.table) Pandas.new Sample.june1)
                          fresh_session) /\
     ds_registrationkey c = "your_api_key").
  { exists {| ds_seriesids := ["CES0000000001"]; ds_startyear := 2019;
               ds_endyear := 2024; ds_registrationkey := "your_api_key" |}.
    split; [|reflexivity]. vm_compute.
    repeat first [apply list_elem_of_here | apply list_elem_of_further]. }
  split; [exact Hin|].
  destruct (code_examples_key Sample.process
              (Sample.press (Frame Sample.table) Pandas.new Sample.june1)
              fresh_session "your_api_key" (or_introl Hin)) as (p & Hp & _ & _).
  exists p. split; [exact Hp|].
  vm_compute in Hp. injection Hp as <-. reflexivity.
Defined.

(** ** The stored results *)

(** What the three keys [bls_data], [bls_log] and [bls_params] hold. *)
Definition stored_results (s : session_state)
  : option pyobj * option Pandas.DataFrame * option params_t :=
  (bls_data s, bls_log s, bls_params s).

(** What an execution fetches: the answer of the client to the request of a
    submission, with that request; nothing when the form was not submitted,
    when the page stopped before the form was read, or when the client
    raised. *)
Definition fetched (e : env) (ev : event) (s : session_state)
  : option (pyobj * Pandas.DataFrame * params_t) :=
  match result (collect_request e ev s) with
  | inr (true, p) =>
      match get_bls_data ev (p_seriesids p) (p_startyear p) (p_endyear p)
              (p_registrationkey p) with
      | Some (data, log) => Some (data, log, p)
      | None => None
      end
  | _ => None
  end.

(** The last fetch of a sequence of executions started in session [s], and
    [earlier] when there is none. *)
Fixpoint last_fetch (e : env) (evs : list event) (s : session_state)
    (earlier : option (pyobj * Pandas.DataFrame * params_t))
  : option (pyobj * Pandas.DataFrame * params_t) :=
  match evs with
  | [] => earlier
  | ev :: evs' =>
      last_fetch e evs' (final (main e ev s))
        (match fetched e ev s with Some f => Some f | None => earlier end)
  end.

(** One execution: the three keys are all rewritten from one fetch, or all
    left as they were. *)
Lemma main_stored_results e ev s :
  stored_results (final (main e ev s)) =
  match fetched e ev s with
  | Some (data, log, p) => (Some data, Some log, Some p)
  | None => stored_results s
  end.
Proof.
  assert (Hkeep : forall s1 s2, same_results s s1 -> same_store s1 s2 ->
                    stored_results s2 = stored_results s).
  { intros s1 s2 (Hd & Hl & Hp & _) (Hd' & Hl' & Hp' & _).
    unfold stored_results. congruence. }
  unfold fetched. rewrite main_run. cbv zeta.
  destruct (quiet_collect_request e ev s) as [Hsame _].
  destruct (result (collect_request e ev s)) as [err|[submitted p]];
    cbn [final]; [now apply (Hkeep _ _ Hsame)|].
  rewrite handle_submission_run. destruct submitted.
  - destruct (get_bls_data ev _ _ _ _) as [[data log]|]; cbn [final result];
      [|now apply (Hkeep _ _ Hsame)].
    match goal with
    | |- context [final (display_results e ev ?s2)] =>
        destruct (display_results_store e ev s2) as (Hd & Hl & Hp & _)
    end.
    unfold stored_results. rewrite Hd, Hl, Hp. reflexivity.
  - cbn [final result]. apply (Hkeep _ _ Hsame), display_results_store.
Qed.

(** C8. In every execution the three keys [bls_data], [bls_log] and
    [bls_params] are either all left as they were or all rewritten from one
    submission: the table and the log are the client's answer to the request
    of that submission and the parameters are that request.  Hence after any
    sequence of executions from the fresh session the three keys are empty
    when nothing was ever fetched, and otherwise hold the answer and the
    request of the last submission that fetched. *)
Theorem stored_results_coherent e evs :
  (forall ev s,
     stored_results (final (main e ev s)) = stored_results s \/
     exists p data log,
       result (collect_request e ev s) = inr (true, p) /\
       get_bls_data ev (p_seriesids p) (p_startyear p) (p_endyear p)
         (p_registrationkey p) = Some (data, log) /\
       stored_results (final (main e ev s)) = (Some data, Some log, Some p)) /\
  stored_results (run_session e evs fresh_session) =
  match last_fetch e evs fresh_session None with
  | Some (data, log, p) => (Some data, Some log, Some p)
  | None => (None, None, None)
  end.
Proof.
  split.
  - intros ev s. rewrite main_stored_results. unfold fetched.
    destruct (result (collect_request e ev s)) as [err|[[] p]] eqn:Hc; try now left.
    destruct (get_bls_data ev _ _ _ _) as [[data log]|] eqn:Hapi; [|now left].
    right. exists p, data, log. repeat split; assumption.
  - assert (Hgen : forall s earlier,
              stored_results s = match earlier with
                                 | Some (data, log, p) => (Some data, Some log, Some p)
                                 | None => (None, None, None)
                                 end ->
              stored_results (run_session e evs s) =
              match last_fetch e evs s earlier with
              | Some (data, log, p) => (Some data, Some log, Some p)
              | None => (None, None, None)
              end).
    { induction evs as [|ev evs IH]; intros s earlier Hs; [exact Hs|].
      cbn [run_session last_fetch]. apply IH.
      rewrite main_stored_results.
      destruct (fetched e ev s) as [[[data log] p]|]; [reflexivity|exact Hs]. }
    now apply Hgen.
Qed.

(** ** The CSV download *)

(** A date of the calendar, as [datetime] has them. *)
Definition valid_date (d : date) : Prop :=
  (1 <= year d <= 9999)%N /\ (1 <= month d <= 12)%N /\ (1 <= day d <= 31)%N.

(** ISO 8601, [YYYY-MM-DD], written digit by digit. *)
Definition iso_date (d : date) : string :=
  String (PyStr.digit (year d / 1000)) (String (PyStr.digit (year d / 100))
  (String (PyStr.digit (year d / 10)) (String (PyStr.digit (year d))
  (String "-"
  (String (PyStr.digit (month d / 10)) (String (PyStr.digit (month d))
  (String "-"
  (String (PyStr.digit (day d / 10)) (String (PyStr.digit (day d))
   EmptyString))))))))).

Lemma zero_padded_2 n :
  (n <= 99)%N ->
  PyStr.zero_padded 2 n
  = String (PyStr.digit (n / 10)) (String (PyStr.digit n) EmptyString).
Proof.
  intros Hn. unfold PyStr.zero_padded. cbn [PyStr.low_digits].
  assert (H2 : (n / 10 / 10 = n / 100)%N) by apply N.Div0.div_div.
  rewrite H2, (N.div_small n 100) by lia. reflexivity.
Qed.

Lemma zero_padded_4 n :
  (n <= 9999)%N ->
  PyStr.zero_padded 4 n
  = String (PyStr.digit (n / 1000)) (String (PyStr.digit (n / 100))
      (String (PyStr.digit (n / 10)) (String (PyStr.digit n) EmptyString))).
Proof.
  intros Hn. unfold PyStr.zero_padded. cbn [PyStr.low_digits].
  assert (H2 : (n / 10 / 10 = n / 100)%N) by apply N.Div0.div_div.
  assert (H3 : (n / 100 / 10 = n / 1000)%N) by apply N.Div0.div_div.
  assert (H4 : (n / 1000 / 10 = n / 10000)%N) by apply N.Div0.div_div.
  rewrite H2, H3, H4, (N.div_small n 10000) by lia. reflexivity.
Qed.

Lemma strftime_iso d : valid_date d -> strftime_Ymd d = iso_date d.
Proof.
  intros (Hy & Hm & Hd). unfold strftime_Ymd, iso_date.
  rewrite zero_padded_4, !zero_padded_2 by lia. reflexivity.
Qed.

(** A field the CSV writer leaves unquoted. *)
Definition plain (f : string) : Prop := Pandas.needs_quote f = false.

Lemma csv_record_plain fields :
  Forall plain fields -> Pandas.csv_record fields = PyStr.join "," fields.
Proof.
  intros Hall. unfold Pandas.csv_record. f_equal.
  rewrite <- (list_fmap_id fields) at 2. apply Forall_fmap_ext_1.
  eapply Forall_impl; [exact Hall|]. intros f Hf.
  unfold Pandas.csv_field. unfold plain in Hf. now rewrite Hf.
Qed.

Lemma plain_no_comma f : plain f -> PyStr.contains "," f = false.
Proof.
  unfold plain, Pandas.needs_quote. intros H.
  repeat (apply orb_false_iff in H as [H ?]). exact H.
Qed.

Lemma plain_no_newline f : plain f -> PyStr.contains Pandas.LF f = false.
Proof.
  unfold plain, Pandas.needs_quote. intros H.
  apply orb_false_iff in H as [H _]. now apply orb_false_iff in H as [_ H].
Qed.

Lemma append_assoc (a b c : string) : (a +:+ b) +:+ c = a +:+ (b +:+ c).
Proof.
  induction a as [|x a IH]; [reflexivity|].
  change (String x ((a +:+ b) +:+ c) = String x (a +:+ (b +:+ c))).
  now rewrite IH.
Qed.

Lemma contains_app c a b :
  PyStr.contains c (a +:+ b) = PyStr.contains c a || PyStr.contains c b.
Proof.
  induction a as [|x a IH]; [reflexivity|].
  change (PyStr.contains c (String x a +:+ b))
    with (Ascii.eqb x c || PyStr.contains c (a +:+ b)).
  rewrite IH. apply orb_assoc.
Qed.

Lemma join_no_newline fields :
  Forall plain fields -> PyStr.contains Pandas.LF (PyStr.join "," fields) = false.
Proof.
  induction 1 as [|f fields Hf _ IH]; [reflexivity|].
  destruct fields as [|g fields]; [now apply plain_no_newline|].
  change (PyStr.join "," (f :: g :: fields))
    with (f +:+ "," +:+ PyStr.join "," (g :: fields)).
  rewrite !contains_app, IH, (plain_no_newline f Hf). reflexivity.
Qed.

(** The first line of the CSV text is the header: the column names in the
    table's order, and splitting it at the commas gives the names back. *)
Lemma to_csv_header df :
  Forall plain (Pandas.columns df) -> Pandas.columns df <> [] ->
  PyStr.split Pandas.LF (Pandas.to_csv false df) !! 0%nat
  = Some (PyStr.join "," (Pandas.columns df)) /\
  PyStr.split "," (PyStr.join "," (Pandas.columns df)) = Pandas.columns df.
Proof.
  intros Hplain Hne. split.
  - rewrite split_head. f_equal.
    unfold Pandas.to_csv, Pandas.csv_line. rewrite csv_record_plain by assumption.
    rewrite append_assoc. cbn [String.append].
    apply before_first_app. now apply join_no_newline.
  - apply split_join; [exact Hne|].
    eapply Forall_impl; [exact Hplain|]. apply plain_no_comma.
Qed.

(** C9. When an execution on date [D] completes with a table and an empty
    log in the session, the page offers exactly one download: its file name
    is ["D A.csv"] with [D] in ISO 8601 form and [A] the stored survey
    abbreviation, its MIME type is [text/csv] and its content is the CSV text
    of the table, the header record first and then the rows in order.  When
    no column name needs quoting, the first line of that text lists the
    column names in the table's order. *)
Theorem csv_download e ev s df log p :
  let r := main e ev s in
  result r = inr tt ->
  bls_data (final r) = Some (Frame df) ->
  bls_log (final r) = Some log ->
  Pandas.is_empty log = true ->
  bls_params (final r) = Some p ->
  valid_date (today ev) ->
  (forall data name mime,
     DownloadButton data name mime ∈ page r <->
     data = Pandas.to_csv false df /\
     name = iso_date (today ev) +:+ " " +:+ p_survey p +:+ ".csv" /\
     mime = "text/csv") /\
  Pandas.to_csv false df
  = Pandas.csv_line (Pandas.columns df)
    +:+ Pandas.concat_lines (Pandas.csv_line <$> Pandas.rows df) /\
  (Forall plain (Pandas.columns df) -> Pandas.columns df <> [] ->
   PyStr.split Pandas.LF (Pandas.to_csv false df) !! 0%nat
   = Some (PyStr.join "," (Pandas.columns df)) /\
   PyStr.split "," (PyStr.join "," (Pandas.columns df)) = Pandas.columns df).
Proof.
  intros r Hres Hdata Hlog Hempty Hparams Hdate.
  split; [|split; [reflexivity|apply to_csv_header]].
  destruct (main_presented e ev s df Hres Hdata)
    as (pre & s2 & p' & Hpre & _ & _ & Hl & _ & Hp' & _ & Hpage).
  fold r in Hl, Hp', Hpage. rewrite Hparams in Hp'. injection Hp' as <-.
  rewrite Hl, Hlog in Hpage. cbv beta iota delta [option.from_option Datatypes.id] in Hpage.
  intros data name mime. rewrite Hpage.
  rewrite result_element_drawn by (assumption || reflexivity).
  rewrite <- strftime_iso by assumption. split.
  - intros Hin. apply elem_of_app in Hin as [Hin|Hin].
    + apply in_output_page in Hin.
      destruct Hin as [[_ H]|[_ [[_ H]|[H|[H|[H|H]]]]]]; try discriminate H.
      injection H as -> -> ->. now repeat split.
    + apply in_code_page in Hin as [_ Hin]. cbv zeta in Hin.
      destruct Hin as [H|[H|[H|H]]]; discriminate H.
  - intros (-> & -> & ->). apply elem_of_app. left.
    unfold output_page. rewrite Hempty. apply elem_of_app. right.
    do 3 apply list_elem_of_further. apply list_elem_of_here.
Qed.

Lemma csv_download_witness :
  result (main Sample.process
            (Sample.press (Frame Sample.table) Pandas.new Sample.june1)
            fresh_session) = inr tt /\
  valid_date Sample.june1 /\
  DownloadButton "series_id,year,value
CES0000000001,2024,159000
" "2025-06-01 CE.csv" "text/csv"
  ∈ page (main Sample.process
            (Sample.press (Frame Sample.table) Pandas.new Sample.june1)
            fresh_session) /\
  PyStr.split "," "series_id,year,value" = ["series_id"; "year"; "value"].
Proof.
  assert (Hres : result (main Sample.process
                           (Sample.press (Frame Sample.table) Pandas.new Sample.june1)
                           fresh_session) = inr tt) by (vm_compute; reflexivity).
  assert (Hdate : valid_date Sample.june1) by (unfold valid_date; cbn; lia).
  destruct (csv_download Sample.process
              (Sample.press (Frame Sample.table) Pandas.new Sample.june1)
              fresh_session Sample.table Pandas.new
              {| p_seriesids := ["CES0000000001"]; p_startyear := 2019;
                 p_endyear := 2024; p_registrationkey := "DEMOKEY";
                 p_survey_name := "Employment"; p_survey := "CE" |})
    as (Hbutton & _ & Hheader).
  - exact Hres.
  - vm_compute; reflexivity.
  - vm_compute; reflexivity.
  - reflexivity.
  - vm_compute; reflexivity.
  - exact Hdate.
  - split; [exact Hres|]. split; [exact Hdate|]. split.
    + apply Hbutton. repeat split; reflexivity.
    + apply Hheader; [repeat constructor|discriminate].
Defined.

Lemma log_state_page_witness :
  result (main Sample.process
            (Sample.press (Frame Sample.table) Sample.message Sample.june1)
            fresh_session) = inr tt /\
  Pandas.is_empty Sample.message = false /\
  LogTable Sample.message
  ∈ page (main Sample.process
            (Sample.press (Frame Sample.table) Sample.message Sample.june1)
            fresh_session) /\
  (SuccessBanner
   ∉ page (main Sample.process
             (Sample.press (Frame Sample.table) Sample.message Sample.june1)
             fresh_session)) /\
  LicenseText
  ∈ page (main Sample.process
            (Sample.press (Frame Sample.table) Sample.message Sample.june1)
            fresh_session).
Proof.
  assert (Hres : result (main Sample.process
                           (Sample.press (Frame Sample.table) Sample.message Sample.june1)
                           fresh_session) = inr tt) by (vm_compute; reflexivity).
  destruct (log_state_page Sample.process
              (Sample.press (Frame Sample.table) Sample.message Sample.june1)
              fresh_session Sample.table Sample.message)
    as (Hlog & Hbanner & _ & _ & _ & _ & _ & Hlicense).
  - exact Hres.
  - vm_compute; reflexivity.
  - vm_compute; reflexivity.
  - reflexivity.
  - split; [exact Hres|]. split; [reflexivity|]. split; [exact Hlog|].
    split; [exact Hbanner|]. now apply Hlicense.
Defined.

(** * Further properties of the script *)

(** ** The survey picker *)

Lemma sorted_keys_sorted datasets : StronglySorted String.le (sorted_keys datasets).
Proof. apply (StronglySorted_merge_sort String.le). Qed.

Lemma sorted_keys_keys datasets a :
  a ∈ sorted_keys datasets <-> is_Some (datasets !! a).
Proof.
  unfold sorted_keys. rewrite merge_sort_Permutation, list_elem_of_fmap. split.
  - intros ([k v] & -> & Hin). apply elem_of_map_to_list in Hin. now exists v.
  - intros [v Hv]. exists (a, v). split; [reflexivity|].
    now apply elem_of_map_to_list.
Qed.

Lemma sorted_keys_NoDup datasets : NoDup (sorted_keys datasets).
Proof.
  unfold sorted_keys. rewrite merge_sort_Permutation.
  apply NoDup_fst_map_to_list.
Qed.

Lemma create_survey_picklist_run ev datasets s :
  create_survey_picklist ev datasets s =
  Outcome s [Heading "Explore Datasets"; Selectbox (sorted_keys datasets)]
    (match picked_survey ev datasets with
     | Some a => match datasets !! a with
                 | Some name => inr (a, name)
                 | None => inl KeyError
                 end
     | None => inl KeyError
     end).
Proof.
  unfold create_survey_picklist, st_selectbox, picked_survey.
  apply run_emit. cbv zeta. apply run_assoc, run_emit, run_ret.
  destruct (match ev_survey ev with
            | Some a => Some a
            | None => head (sorted_keys datasets)
            end) as [a|]; [|reflexivity].
  cbn [mbind option_bind]. destruct (datasets !! a); reflexivity.
Qed.

(** X1. The survey picker offers every abbreviation of the catalog exactly
    once, in ascending order.  Left untouched on a catalog that is not empty
    it hands back the smallest abbreviation with its full name; on an empty
    catalog the lookup of the selection raises [KeyError].  The session is
    left as it was. *)
Theorem survey_picker_default ev datasets s :
  ev_survey ev = None ->
  let r := create_survey_picklist ev datasets s in
  let options := sorted_keys datasets in
  page r = [Heading "Explore Datasets"; Selectbox options] /\
  final r = s /\
  StronglySorted String.le options /\ NoDup options /\
  (forall a, a ∈ options <-> is_Some (datasets !! a)) /\
  match options with
  | [] => datasets = ∅ /\ result r = inl KeyError
  | a :: _ =>
      exists name, datasets !! a = Some name /\ result r = inr (a, name) /\
                   forall b, is_Some (datasets !! b) -> String.le a b
  end.
Proof.
  intros Hev r options. subst r options. rewrite create_survey_picklist_run.
  cbn [page final result]. unfold picked_survey. rewrite Hev.
  split; [reflexivity|]. split; [reflexivity|].
  split; [apply sorted_keys_sorted|]. split; [apply sorted_keys_NoDup|].
  split; [apply sorted_keys_keys|].
  pose proof (sorted_keys_sorted datasets) as Hsorted.
  pose proof (sorted_keys_keys datasets) as Hkeys.
  destruct (sorted_keys datasets) as [|a l]; cbn [head].
  - split; [|reflexivity]. apply map_eq. intros k. rewrite lookup_empty.
    destruct (datasets !! k) eqn:Hk; [|reflexivity].
    exfalso. eapply not_elem_of_nil, Hkeys. rewrite Hk. eauto.
  - destruct (proj1 (Hkeys a) (list_elem_of_here _ _)) as [name Hname].
    exists name. rewrite Hname. split; [reflexivity|]. split; [reflexivity|].
    intros b Hb. apply Hkeys in Hb. apply elem_of_cons in Hb as [->|Hb];
      [reflexivity|].
    apply StronglySorted_inv in Hsorted as [_ Hall].
    rewrite Forall_forall in Hall. now apply Hall.
Qed.

Lemma survey_picker_default_witness :
  ev_survey (Sample.look Sample.june1) = None /\
  result (create_survey_picklist (Sample.look Sample.june1)
            (<[ "LN" := "Labor Force" ]> (<[ "CE" := "Employment" ]> ∅))
            fresh_session)
  = inr ("CE", "Employment").
Proof.
  split; [reflexivity|].
  destruct (survey_picker_default (Sample.look Sample.june1)
              (<[ "LN" := "Labor Force" ]> (<[ "CE" := "Employment" ]> ∅))
              fresh_session eq_refl) as (_ & _ & _ & _ & _ & H).
  change (sorted_keys (<[ "LN" := "Labor Force" ]> (<[ "CE" := "Employment" ]> ∅)))
    with ["CE"; "LN"] in H.
  destruct H as (name & Hname & Hres & _). rewrite Hres.
  vm_compute in Hname. now injection Hname as <-.
Defined.

(** ** When a loader or the client raises *)

Lemma run_bind_eq {A B} (m : script B) (k : B -> script A) s s1 pg1 b s2 pg2 pg r :
  m s = Outcome s1 pg1 (inr b) -> k b s1 = Outcome s2 pg2 r ->
  pg = (pg1 ++ pg2)%list ->
  (m ≫= k) s = Outcome s2 pg r.
Proof. intros Hm Hk ->. now apply run_bind with s1 b. Qed.

Lemma run_fail {A B} (m : script B) (k : B -> script A) s s1 pg1 err :
  m s = Outcome s1 pg1 (inl err) -> (m ≫= k) s = Outcome s1 pg1 (inl err).
Proof. intros Hm. rewrite bind_unfold, Hm. reflexivity. Qed.

(** The page down to the survey picker. *)
Definition page_head (datasets : gmap string string) : list element :=
  [ PageConfig; Style; AppHeader; Sidebar; Heading "Explore Datasets";
    Selectbox (sorted_keys datasets) ].

(** X2. When the catalog cannot be loaded the execution stops with the
    client's error after the header and the sidebar; when the picker's
    selection is not in the catalog it stops with [KeyError] after the
    picker; when the metadata of the picked survey cannot be loaded it stops
    with the client's error after the picker.  In all three cases the
    session is left exactly as it was and nothing of the form or of earlier
    results is drawn. *)
Theorem loaders_raise e ev s :
  match get_surveys e with
  | None =>
      main e ev s
      = Outcome s [PageConfig; Style; AppHeader; Sidebar] (inl ClientError)
  | Some datasets =>
      match picked_survey ev datasets ≫= (datasets !!.) with
      | None => main e ev s = Outcome s (page_head datasets) (inl KeyError)
      | Some name =>
          match get_survey_metadata e name with
          | None => main e ev s = Outcome s (page_head datasets) (inl ClientError)
          | Some _ => True
          end
      end
  end.
Proof.
  assert (Hmain : forall pg err,
            collect_request e ev s = Outcome s pg (inl err) ->
            main e ev s = Outcome s pg (inl err)).
  { intros pg err Hc. unfold main. now apply run_fail. }
  unfold page_head.
  destruct (get_surveys e) as [datasets|] eqn:Hs.
  - destruct (picked_survey ev datasets ≫= (datasets !!.)) as [name|] eqn:Hname.
    + destruct (get_survey_metadata e name) eqn:Hmeta; [exact I|].
      apply Hmain. unfold collect_request, configure_user_interface,
        display_app_header, create_sidebar, load_surveys, load_metadata.
      apply run_assoc, run_emit, run_emit, run_emit, run_emit.
      rewrite Hs. apply run_ret.
      destruct (picked_survey ev datasets) as [a|] eqn:Hpick; [|discriminate].
      cbn [mbind option_bind] in Hname.
      eapply run_bind_eq;
        [rewrite create_survey_picklist_run, Hpick, Hname; reflexivity| |reflexivity].
      cbv beta iota. rewrite Hmeta. reflexivity.
    + apply Hmain. unfold collect_request, configure_user_interface,
        display_app_header, create_sidebar, load_surveys.
      apply run_assoc, run_emit, run_emit, run_emit, run_emit.
      rewrite Hs. apply run_ret. apply run_fail.
      rewrite create_survey_picklist_run.
      destruct (picked_survey ev datasets) as [a|]; [|reflexivity].
      cbn [mbind option_bind] in Hname. now rewrite Hname.
  - apply Hmain. unfold collect_request, configure_user_interface,
      display_app_header, create_sidebar, load_surveys.
    apply run_assoc, run_emit, run_emit, run_emit, run_emit.
    rewrite Hs. reflexivity.
Qed.

(** X3. When the client raises while a submission is fetched, the
    execution stops with the client's error once the spinner is drawn:
    nothing is stored, the animation flag is not raised, and neither the
    results of this submission nor those of an earlier one are drawn. *)
Theorem client_raises e ev s p :
  result (collect_request e ev s) = inr (true, p) ->
  get_bls_data ev (p_seriesids p) (p_startyear p) (p_endyear p)
    (p_registrationkey p) = None ->
  let r := main e ev s in
  result r = inl ClientError /\
  stored_results (final r) = stored_results s /\
  show_balloons (final r) = show_balloons s /\
  Spinner ∈ page r /\
  no_result_element (page r).
Proof.
  intros Hc Hapi r. subst r. rewrite main_run. cbv zeta. rewrite Hc.
  rewrite handle_submission_run, Hapi. cbn [final page result].
  destruct (quiet_collect_request e ev s) as [(Hd & Hl & Hp & Hb) Hquiet].
  split; [reflexivity|]. split; [unfold stored_results; congruence|].
  split; [exact Hb|]. split.
  - apply elem_of_app. right. apply list_elem_of_here.
  - apply Forall_app. split; [exact Hquiet|]. repeat constructor.
Qed.

Lemma client_raises_witness :
  result (main Sample.process
            {| ev_survey := None; ev_key := None; ev_years := None;
               ev_selected := None; ev_submit := true;
               get_bls_data := fun _ _ _ _ => None; today := Sample.june1 |}
            (final (main Sample.process
                      (Sample.press (Frame Sample.table) Pandas.new Sample.june1)
                      fresh_session)))
  = inl ClientError /\
  stored_results
    (final (main Sample.process
            {| ev_survey := None; ev_key := None; ev_years := None;
               ev_selected := None; ev_submit := true;
               get_bls_data := fun _ _ _ _ => None; today := Sample.june1 |}
            (final (main Sample.process
                      (Sample.press (Frame Sample.table) Pandas.new Sample.june1)
                      fresh_session))))
  = stored_results
      (final (main Sample.process
                (Sample.press (Frame Sample.table) Pandas.new Sample.june1)
                fresh_session)).
Proof.
  destruct (client_raises Sample.process
              {| ev_survey := None; ev_key := None; ev_years := None;
                 ev_selected := None; ev_submit := true;
                 get_bls_data := fun _ _ _ _ => None; today := Sample.june1 |}
              (final (main Sample.process
                        (Sample.press (Frame Sample.table) Pandas.new Sample.june1)
                        fresh_session))
              {| p_seriesids := ["CES0000000001"]; p_startyear := 2019;
                 p_endyear := 2024; p_registrationkey := "DEMOKEY";
                 p_survey_name := "Employment"; p_survey := "CE" |})
    as (Hres & Hstored & _).
  - vm_compute. reflexivity.
  - reflexivity.
  - split; [exact Hres|exact Hstored].
Defined.

(** ** The animation over a whole session *)

(** Whether the result presenter, run on this session, draws the balloons. *)
Definition would_fire (s : session_state) : bool :=
  match bls_data s, bls_params s with
  | Some (Frame _), Some _ =>
      Pandas.is_empty (default Pandas.new (bls_log s))
      && default false (show_balloons s)
  | _, _ => false
  end.

Lemma would_fire_same s s' : same_results s s' -> would_fire s' = would_fire s.
Proof. intros (Hd & Hl & Hp & Hb). unfold would_fire. now rewrite Hd, Hl, Hp, Hb. Qed.

Lemma display_results_fire e ev s :
  balloons_drawn (page (display_results e ev s)) = (if would_fire s then 1 else 0)%nat /\
  would_fire (final (display_results e ev s)) = false.
Proof.
  assert (Hidle : forall pg err_or_unit,
            would_fire s = false ->
            balloons_drawn (page (Outcome (A:=unit) s [] err_or_unit)) = pg ->
            pg = (if would_fire s then 1 else 0)%nat /\ would_fire s = false).
  { intros pg r Hs <-. now rewrite Hs. }
  rewrite display_results_run.
  destruct (bls_data s) as [[df|]|] eqn:Hd.
  - destruct (bls_params s) as [p|] eqn:Hp.
    + cbv zeta. cbn [final page]. split.
      * rewrite balloons_drawn_app, balloons_drawn_code.
        unfold would_fire, output_page. rewrite Hd, Hp.
        destruct (Pandas.is_empty _); [|reflexivity].
        now destruct (default false (show_balloons s)).
      * unfold flag_consumed.
        destruct (Pandas.is_empty (default Pandas.new (bls_log s))
                  && default false (show_balloons s)) eqn:Hfire.
        -- unfold would_fire.
           cbn [bls_data bls_params bls_log show_balloons set_show_balloons].
           rewrite Hd, Hp. apply andb_false_r.
        -- unfold would_fire. now rewrite Hd, Hp.
    + cbn [final]. eapply Hidle; [|reflexivity].
      unfold would_fire. now rewrite Hd, Hp.
  - destruct (bls_params s); cbn [final]; (eapply Hidle; [|reflexivity]);
      unfold would_fire; now rewrite Hd.
  - destruct (bls_params s); cbn [final]; (eapply Hidle; [|reflexivity]);
      unfold would_fire; now rewrite Hd.
Qed.

Lemma main_fire e ev s :
  would_fire s = false ->
  (balloons_drawn (page (main e ev s)) <= (if ev_submit ev then 1 else 0))%nat /\
  would_fire (final (main e ev s)) = false.
Proof.
  intros Hs.
  destruct (main_cases e ev s)
    as [(err & _ & Hquiet & Hsame)|(pre & s2 & Hpre & Hover & Hpage & Hfinal & _)].
  - rewrite balloons_drawn_quiet by assumption.
    split; [lia|]. now rewrite (would_fire_same _ _ Hsame).
  - destruct (display_results_fire e ev s2) as [Hdrawn Hafter].
    rewrite Hpage, Hfinal, balloons_drawn_app, balloons_drawn_quiet, Hdrawn
      by assumption.
    split; [|exact Hafter].
    destruct Hover as [[-> Hsame]|[-> _]].
    + rewrite (would_fire_same _ _ Hsame), Hs. lia.
    + destruct (would_fire s2); lia.
Qed.

Lemma run_session_fire e evs s :
  would_fire s = false -> would_fire (run_session e evs s) = false.
Proof.
  revert s. induction evs as [|ev evs IH]; intros s Hs; [exact Hs|].
  cbn [run_session]. apply IH. now apply main_fire.
Qed.

(** X4. In a session built by the script from the fresh one, an execution
    draws the balloons at most once, and never when the form was not
    submitted: a flag left raised by a submission that came back with a
    log, or with something that is no table, fires no animation later. *)
Theorem balloons_need_submission e evs ev :
  (balloons_drawn (page (main e ev (run_session e evs fresh_session)))
   <= (if ev_submit ev then 1 else 0))%nat.
Proof. apply main_fire, run_session_fire. reflexivity. Qed.

(** ** The result presenter never raises *)

(** The three result keys are all absent or all present. *)
Definition all_or_none (s : session_state) : Prop :=
  stored_results s = (None, None, None) \/
  exists data log p, stored_results s = (Some data, Some log, Some p).

Lemma main_all_or_none e ev s : all_or_none s -> all_or_none (final (main e ev s)).
Proof.
  intros Hs. unfold all_or_none. rewrite main_stored_results.
  destruct (fetched e ev s) as [[[data log] p]|]; [|exact Hs].
  right. eauto.
Qed.

Lemma run_session_all_or_none e evs s :
  all_or_none s -> all_or_none (run_session e evs s).
Proof.
  revert s. induction evs as [|ev evs IH]; intros s Hs; [exact Hs|].
  cbn [run_session]. apply IH. now apply main_all_or_none.
Qed.

Lemma display_results_completes e ev s :
  all_or_none s -> result (display_results e ev s) = inr tt.
Proof.
  intros Hs. rewrite display_results_run.
  destruct (bls_data s) as [[df|]|] eqn:Hd; try (destruct (bls_params s); reflexivity).
  destruct (bls_params s) as [p|] eqn:Hp; [reflexivity|].
  exfalso. unfold all_or_none, stored_results in Hs. rewrite Hd, Hp in Hs.
  destruct Hs as [Hs|(data & log & p & Hs)]; discriminate Hs.
Qed.

(** X5. In a session built by the script from the fresh one, the lookups
    [st.session_state["bls_params"][...]] of the result presenter never
    raise: an execution that stops with an exception stopped in the page
    down to the form, or on the client raising while the submission was
    fetched. *)
Theorem presenter_never_raises e evs ev :
  let s := run_session e evs fresh_session in
  match result (main e ev s) with
  | inr _ => True
  | inl err =>
      result (collect_request e ev s) = inl err \/
      (err = ClientError /\ fetched e ev s = None /\
       exists p, result (collect_request e ev s) = inr (true, p))
  end.
Proof.
  intros s.
  assert (Hs : all_or_none s) by (apply run_session_all_or_none; now left).
  unfold fetched. rewrite main_run. cbv zeta.
  destruct (quiet_collect_request e ev s) as [(Hd & Hl & Hp & _) _].
  destruct (result (collect_request e ev s)) as [err|[submitted p]] eqn:Hc;
    cbn [result]; [now left|].
  assert (Hs1 : all_or_none (final (collect_request e ev s))).
  { unfold all_or_none, stored_results in *. now rewrite Hd, Hl, Hp. }
  rewrite handle_submission_run. destruct submitted.
  - destruct (get_bls_data ev _ _ _ _) as [[data log]|]; cbn [result final].
    + rewrite display_results_completes; [exact I|]. right. eauto.
    + right. split; [reflexivity|]. split; [reflexivity|]. eauto.
  - cbn [result final]. now rewrite display_results_completes.
Qed.

(** ** The remembered API key over a whole session *)

Lemma rstrip_cons c s :
  PyStr.isspace c = false -> PyStr.rstrip (String c s) = String c (PyStr.rstrip s).
Proof. intros Hc. cbn [PyStr.rstrip]. destruct (PyStr.rstrip s); now rewrite ?Hc. Qed.

Lemma rstrip_idem s : PyStr.rstrip (PyStr.rstrip s) = PyStr.rstrip s.
Proof.
  induction s as [|c s IH]; [reflexivity|].
  cbn [PyStr.rstrip]. destruct (PyStr.rstrip s) as [|c' r] eqn:Hr.
  - destruct (PyStr.isspace c) eqn:Hc; [reflexivity|].
    cbn [PyStr.rstrip]. now rewrite Hc.
  - cbn [PyStr.rstrip] in IH |- *. rewrite IH. reflexivity.
Qed.

Lemma lstrip_head s :
  PyStr.lstrip s = EmptyString \/
  exists c t, PyStr.lstrip s = String c t /\ PyStr.isspace c = false.
Proof.
  induction s as [|c s IH]; [now left|].
  cbn [PyStr.lstrip]. destruct (PyStr.isspace c) eqn:Hc; [exact IH|].
  right. eauto.
Qed.

(** Stripping a stripped string changes nothing. *)
Lemma strip_idem s : PyStr.strip (PyStr.strip s) = PyStr.strip s.
Proof.
  unfold PyStr.strip. destruct (lstrip_head s) as [->|(c & t & -> & Hc)];
    [reflexivity|].
  rewrite rstrip_cons by assumption. cbn [PyStr.lstrip]. rewrite Hc.
  rewrite rstrip_cons by assumption. now rewrite rstrip_idem.
Qed.

Lemma query_builder_final e ev picklist y0 y1 s :
  final (display_api_query_builder e ev picklist y0 y1 s)
  = set_user_registrationkey (remembered_key s ev) s.
Proof.
  destruct picklist; [now rewrite query_builder_no_series|now rewrite query_builder_run].
Qed.

Section KeyInvariant.
Variable Inv : session_state -> Prop.
Hypothesis Inv_key : forall s s',
  user_registrationkey s' = user_registrationkey s -> Inv s -> Inv s'.
Hypothesis Inv_remembered : forall s ev,
  Inv s -> Inv (set_user_registrationkey (remembered_key s ev) s).

Definition carries (s s' : session_state) : Prop := Inv s -> Inv s'.

#[local] Instance carries_refl : Reflexive carries.
Proof. now intros s. Qed.
#[local] Instance carries_trans : Transitive carries.
Proof. intros a b c Hab Hbc Ha. now apply Hbc, Hab. Qed.

Lemma carries_collect_request e ev :
  keeps carries (fun _ => True) (collect_request e ev).
Proof.
  assert (Hqb : forall picklist y0 y1,
            keeps carries (fun _ => True)
              (display_api_query_builder e ev picklist y0 y1)).
  { intros picklist y0 y1 s. split.
    - rewrite query_builder_final. intros Hs. now apply Inv_remembered.
    - apply Forall_forall. now intros. }
  unfold collect_request, configure_user_interface, display_app_header,
    create_sidebar, load_surveys, create_survey_picklist, st_selectbox,
    load_metadata, display_description, display_data_preview.
  repeat first
    [ apply Hqb
    | apply keeps_bind; [typeclasses eauto..| |intros]
    | apply keeps_ret; typeclasses eauto
    | apply keeps_from_option; typeclasses eauto
    | apply keeps_emit; [typeclasses eauto|exact Logic.I]
    | case_match ].
Qed.

(** An invariant of the remembered key is kept by every execution. *)
Lemma main_carries e ev s : Inv s -> Inv (final (main e ev s)).
Proof.
  intros Hs. rewrite main_run. cbv zeta.
  destruct (carries_collect_request e ev s) as [Hc _]. apply Hc in Hs.
  destruct (result (collect_request e ev s)) as [err|[submitted p]];
    cbn [final]; [exact Hs|].
  rewrite handle_submission_run.
  assert (Hdisplay : forall s2,
            user_registrationkey s2
            = user_registrationkey (final (collect_request e ev s)) ->
            Inv (final (display_results e ev s2))).
  { intros s2 Hk. destruct (display_results_store e ev s2) as (_ & _ & _ & Hk').
    eapply Inv_key; [|exact Hs]. congruence. }
  destruct submitted; [|cbn [result final]; now apply Hdisplay].
  destruct (get_bls_data ev _ _ _ _) as [[data log]|]; cbn [result final];
    [now apply Hdisplay|exact Hs].
Qed.

Lemma run_session_carries e evs s : Inv s -> Inv (run_session e evs s).
Proof.
  revert s. induction evs as [|ev evs IH]; intros s Hs; [exact Hs|].
  cbn [run_session]. now apply IH, main_carries.
Qed.

End KeyInvariant.

(** X6. In a session built by the script from the fresh one, the remembered
    API key never has leading or trailing whitespace. *)
Theorem remembered_key_trimmed e evs :
  match user_registrationkey (run_session e evs fresh_session) with
  | Some k => PyStr.strip k = k
  | None => True
  end.
Proof.
  apply (run_session_carries
           (fun s => match user_registrationkey s with
                     | Some k => PyStr.strip k = k
                     | None => True
                     end)).
  - intros s s' ->. tauto.
  - intros s ev Hs. cbn [user_registrationkey set_user_registrationkey].
    rewrite remembered_key_spec. cbv zeta.
    destruct (PyStr.truthy _); [apply strip_idem|].
    destruct (user_registrationkey s); [exact Hs|reflexivity].
  - exact Logic.I.
Qed.

(** ** The key field and what the user enters *)

Lemma display_data_preview_run metadata s :
  display_data_preview metadata s =
  match Pandas.drop ["survey_name"; "survey_abbreviation"] (data_preview metadata)
        ≫= Pandas.set_index "series_id" with
  | Some t => Outcome s [Heading "Data Preview:"; Dataframe t] (inr tt)
  | None => Outcome s [Heading "Data Preview:"] (inl KeyError)
  end.
Proof.
  unfold display_data_preview.
  destruct (Pandas.drop _ _) as [df1|]; cbn [mbind option_bind]; [|reflexivity].
  destruct (Pandas.set_index "series_id" df1) as [t|] eqn:E;
    apply run_emit, run_ret; rewrite E; reflexivity.
Qed.

(** The request made of the query builder's answer. *)
Definition request_of (survey survey_name : string)
    (answer : bool * string * Z * Z * list string) : bool * params_t :=
  let '(submitted, registrationkey, startyear, endyear, seriesids) := answer in
  (submitted,
   {| p_seriesids := seriesids; p_startyear := startyear; p_endyear := endyear;
      p_registrationkey := registrationkey; p_survey_name := survey_name;
      p_survey := survey |}).

(** The first part of [main], case by case. *)
Lemma collect_request_run e ev s :
  collect_request e ev s =
  match get_surveys e with
  | None => Outcome s [PageConfig; Style; AppHeader; Sidebar] (inl ClientError)
  | Some datasets =>
      match picked_survey ev datasets with
      | None => Outcome s (page_head datasets) (inl KeyError)
      | Some survey =>
          match datasets !! survey with
          | None => Outcome s (page_head datasets) (inl KeyError)
          | Some survey_name =>
              match get_survey_metadata e survey_name with
              | None => Outcome s (page_head datasets) (inl ClientError)
              | Some metadata =>
                  let described :=
                    (page_head datasets ++
                     [ Heading "Dataset Description";
                       Description (survey_description metadata);
                       Heading "Data Preview:" ])%list in
                  match Pandas.drop ["survey_name"; "survey_abbreviation"]
                          (data_preview metadata)
                        ≫= Pandas.set_index "series_id" with
                  | None => Outcome s described (inl KeyError)
                  | Some t =>
                      let qb := display_api_query_builder e ev
                                  (prepare_series_picklist metadata)
                                  (survey_minimum_year metadata)
                                  (survey_maximum_year metadata) s in
                      Outcome (final qb) (described ++ Dataframe t :: page qb)
                        match result qb with
                        | inl err => inl err
                        | inr answer => inr (request_of survey survey_name answer)
                        end
                  end
              end
          end
      end
  end.
Proof.
  unfold collect_request, configure_user_interface, display_app_header,
    create_sidebar, load_surveys, load_metadata, display_description, page_head.
  destruct (get_surveys e) as [datasets|].
  2:{ apply run_assoc, run_emit, run_emit, run_emit, run_emit. reflexivity. }
  destruct (picked_survey ev datasets) as [survey|] eqn:Hpick.
  2:{ apply run_assoc, run_emit, run_emit, run_emit, run_emit, run_ret, run_fail.
      now rewrite create_survey_picklist_run, Hpick. }
  destruct (datasets !! survey) as [survey_name|] eqn:Hname.
  2:{ apply run_assoc, run_emit, run_emit, run_emit, run_emit, run_ret, run_fail.
      now rewrite create_survey_picklist_run, Hpick, Hname. }
  destruct (get_survey_metadata e survey_name) as [metadata|] eqn:Hmeta.
  2:{ apply run_assoc, run_emit, run_emit, run_emit, run_emit, run_ret.
      eapply run_bind_eq;
        [rewrite create_survey_picklist_run, Hpick, Hname; reflexivity| |reflexivity].
      cbv beta iota. rewrite Hmeta. reflexivity. }
  cbv zeta. cbn [app].
  destruct (Pandas.drop _ _ ≫= _) as [t|] eqn:Hpv.
  - apply run_assoc, run_emit, run_emit, run_emit, run_emit, run_ret.
    eapply run_bind_eq;
      [rewrite create_survey_picklist_run, Hpick, Hname; reflexivity| |reflexivity].
    cbv beta iota. rewrite Hmeta. apply run_ret, run_assoc, run_emit, run_emit.
    eapply run_bind_eq;
      [rewrite display_data_preview_run, Hpv; reflexivity| |reflexivity].
    rewrite bind_unfold.
    destruct (result (display_api_query_builder _ _ _ _ _ _))
      as [err|[[[[submitted key] y0] y1] ids]];
      cbn [final page result request_of]; rewrite ?app_nil_r; reflexivity.
  - apply run_assoc, run_emit, run_emit, run_emit, run_emit, run_ret.
    eapply run_bind_eq;
      [rewrite create_survey_picklist_run, Hpick, Hname; reflexivity| |reflexivity].
    cbv beta iota. rewrite Hmeta. apply run_ret, run_assoc, run_emit, run_emit.
    apply run_fail. now rewrite display_data_preview_run, Hpv.
Qed.

Lemma draws_key_field_app pg1 pg2 :
  draws_key_field (pg1 ++ pg2) = draws_key_field pg1 || draws_key_field pg2.
Proof. apply existsb_app. Qed.

Lemma query_builder_draws e ev picklist y0 y1 s :
  draws_key_field (page (display_api_query_builder e ev picklist y0 y1 s)) = true.
Proof.
  destruct picklist; [rewrite query_builder_no_series|rewrite query_builder_run];
    reflexivity.
Qed.

(** The first part of [main] draws the key field exactly when it reaches the
    query builder, which then reads the field and remembers the key. *)
Lemma collect_request_key_field e ev s :
  let r := collect_request e ev s in
  if draws_key_field (page r)
  then final r = set_user_registrationkey (remembered_key s ev) s
  else final r = s /\ exists err, result r = inl err.
Proof.
  cbv zeta. rewrite collect_request_run. unfold page_head.
  repeat case_match; cbn [final page result draws_key_field existsb orb app] in *;
    try (split; [reflexivity|eexists; reflexivity]);
    try discriminate.
  all: fold draws_key_field in *.
  all: try apply query_builder_final.
  all: rewrite query_builder_draws in *; discriminate.
Qed.

Lemma display_results_draws e ev s :
  draws_key_field (page (display_results e ev s)) = false.
Proof.
  rewrite display_results_run.
  destruct (bls_data s) as [[df|]|]; try (destruct (bls_params s); reflexivity).
  destruct (bls_params s) as [p|]; [|reflexivity].
  cbv zeta. cbn [page]. rewrite draws_key_field_app.
  unfold output_page, code_page.
  destruct (Pandas.is_empty (default Pandas.new (bls_log s))),
    (default false (show_balloons s)), (Pandas.is_empty df); reflexivity.
Qed.

Lemma main_draws e ev s :
  draws_key_field (page (main e ev s))
  = draws_key_field (page (collect_request e ev s)).
Proof.
  rewrite main_run. cbv zeta.
  destruct (result (collect_request e ev s)) as [err|[submitted p]];
    [reflexivity|].
  rewrite handle_submission_run.
  destruct submitted; [destruct (get_bls_data ev _ _ _ _) as [[data log]|]|];
    cbn [final page result];
    rewrite !draws_key_field_app, ?display_results_draws;
    cbn [draws_key_field existsb orb]; now rewrite ?orb_false_r.
Qed.

Lemma main_key e ev s :
  user_registrationkey (final (main e ev s))
  = user_registrationkey (final (collect_request e ev s)).
Proof.
  rewrite main_run. cbv zeta.
  destruct (result (collect_request e ev s)) as [err|[submitted p]];
    [reflexivity|].
  rewrite handle_submission_run.
  assert (Hdisplay : forall s2,
            user_registrationkey (final (display_results e ev s2))
            = user_registrationkey s2).
  { intros s2. now destruct (display_results_store e ev s2) as (_ & _ & _ & Hk). }
  destruct submitted; [destruct (get_bls_data ev _ _ _ _) as [[data log]|]|];
    cbn [final page result]; rewrite ?Hdisplay; reflexivity.
Qed.

(** What a request carries and what the session remembers once the first
    part of [main] has completed. *)
Lemma request_key e ev s submitted p :
  result (collect_request e ev s) = inr (submitted, p) ->
  p_registrationkey p
  = PyStr.or_else (remembered_key s ev)
      (default EmptyString (secrets_get e "bls_api_key")) /\
  user_registrationkey (final (collect_request e ev s))
  = Some (remembered_key s ev).
Proof.
  intros Hc. apply collect_request_completes in Hc
    as (datasets & metadata & _ & _ & _ & _ & Hq & Hfinal).
  rewrite Hfinal, query_builder_final. split; [|reflexivity].
  destruct (prepare_series_picklist metadata) as [|first rest].
  - rewrite query_builder_no_series in Hq. discriminate Hq.
  - rewrite query_builder_run in Hq. cbn [result] in Hq. congruence.
Qed.

Lemma truthy_spec s : PyStr.truthy s = true <-> s <> EmptyString.
Proof. destruct s; cbn; split; congruence. Qed.

(** The key the session remembers once the script has read [text] from the
    key field, [stored] being remembered before. *)
Definition key_read (text stored : string) : string :=
  if PyStr.truthy (PyStr.strip text) then PyStr.strip text else stored.

Lemma received_key b s a :
  remembered_key s (received b s a)
  = key_read (kf_text (text_input_field b a
                         (default EmptyString (user_registrationkey s))))
      (default EmptyString (user_registrationkey s)).
Proof. now rewrite remembered_key_spec. Qed.

Lemma text_input_field_value b a value :
  kf_value (text_input_field b a value) = value.
Proof.
  unfold text_input_field. destruct b as [f|]; [|reflexivity].
  now destruct (String.eqb (kf_value f) value).
Qed.

(** The field on the page was drawn with the key remembered before the last
    execution, and the session remembers what that execution read from it. *)
Definition field_read (bs : option key_field * session_state) : Prop :=
  forall f, bs.1 = Some f ->
    user_registrationkey bs.2 = Some (key_read (kf_text f) (kf_value f)).

(** The remembered key has no surrounding whitespace. *)
Definition key_trimmed (s : session_state) : Prop :=
  PyStr.strip (default EmptyString (user_registrationkey s))
  = default EmptyString (user_registrationkey s).

Lemma visit_field_read e a bs : field_read (visit e a bs).
Proof.
  intros f. unfold visit. cbn [fst snd]. rewrite main_draws, main_key.
  pose proof (collect_request_key_field e (received bs.1 bs.2 a) bs.2) as Hc.
  cbv zeta in Hc.
  destruct (draws_key_field _); [|discriminate].
  intros [= <-]. rewrite Hc. cbn [user_registrationkey set_user_registrationkey].
  now rewrite received_key, text_input_field_value.
Qed.

Lemma main_key_trimmed e ev s : key_trimmed s -> key_trimmed (final (main e ev s)).
Proof.
  apply (main_carries key_trimmed).
  - unfold key_trimmed. now intros s0 s' ->.
  - unfold key_trimmed. intros s0 ev0 Hs.
    cbn [user_registrationkey set_user_registrationkey option.from_option Datatypes.id].
    rewrite remembered_key_spec. cbv zeta.
    destruct (PyStr.truthy _); [apply strip_idem|exact Hs].
Qed.

Lemma visits_invariant e acts bs :
  field_read bs -> key_trimmed bs.2 ->
  field_read (visits e acts bs) /\ key_trimmed (visits e acts bs).2.
Proof.
  revert bs. induction acts as [|a acts IH]; intros bs Hf Ht; [now split|].
  cbn [visits]. apply IH; [apply visit_field_read|].
  unfold visit. cbn [snd]. now apply main_key_trimmed.
Qed.

Lemma page_opened_invariant e acts :
  field_read (visits e acts page_opened) /\
  key_trimmed (visits e acts page_opened).2.
Proof. apply visits_invariant; [intros f [=]|reflexivity]. Qed.

(** What the script reads from the key field when no entry reaches it: in
    a session the script has built, that leaves the remembered key as it
    is. *)
Lemma no_entry_read b s a :
  field_read (b, s) -> key_trimmed s ->
  let stored := default EmptyString (user_registrationkey s) in
  (forall f entry, b = Some f -> kf_value f = stored -> ev_submit a = true ->
                   ev_key a = Some entry -> PyStr.strip entry = EmptyString) ->
  key_read (kf_text (text_input_field b a stored)) stored = stored.
Proof.
  intros Hf Ht stored Hempty. unfold key_read, text_input_field.
  assert (Hfresh : (if PyStr.truthy (PyStr.strip stored)
                    then PyStr.strip stored else stored) = stored).
  { unfold key_trimmed in Ht. fold stored in Ht. rewrite Ht. now destruct (PyStr.truthy _). }
  destruct b as [f|]; [|exact Hfresh].
  destruct (String.eqb_spec (kf_value f) stored) as [Hv|Hv]; [|exact Hfresh].
  cbn [kf_text]. unfold entry.
  destruct (ev_submit a) eqn:Hsub; [destruct (ev_key a) as [x|] eqn:Hkey|];
    cbn [option.from_option Datatypes.id].
  - now rewrite (Hempty f x eq_refl Hv eq_refl eq_refl).
  - specialize (Hf f eq_refl). cbn [snd] in Hf. unfold key_read in Hf.
    subst stored. rewrite Hf in Hv |- *. cbn [option.from_option Datatypes.id] in *.
    destruct (PyStr.truthy _); [reflexivity|exact Hv].
  - specialize (Hf f eq_refl). cbn [snd] in Hf. unfold key_read in Hf.
    subst stored. rewrite Hf in Hv |- *. cbn [option.from_option Datatypes.id] in *.
    destruct (PyStr.truthy _); [reflexivity|exact Hv].
Qed.






Lemma visits_app e acts0 acts1 bs :
  visits e (acts0 ++ acts1) bs = visits e acts1 (visits e acts0 bs).
Proof. revert bs. induction acts0 as [|a acts0 IH]; intros bs; [reflexivity|apply IH]. Qed.

(** A non-empty key stays remembered, as this key or another. *)
Definition key_kept (s : session_state) : Prop :=
  exists k, user_registrationkey s = Some k /\ k <> EmptyString.

Lemma visits_key_kept e acts bs : key_kept bs.2 -> key_kept (visits e acts bs).2.
Proof.
  revert bs. induction acts as [|a acts IH]; intros bs Hk; [exact Hk|].
  cbn [visits]. apply IH. unfold visit. cbn [snd]. revert Hk.
  apply (main_carries key_kept); unfold key_kept.
  - intros s0 s' ->. tauto.
  - intros s0 ev0 (k0 & Hk0 & Hne0).
    cbn [user_registrationkey set_user_registrationkey].
    eexists. split; [reflexivity|].
    rewrite remembered_key_spec, Hk0. cbv zeta. cbn [option.from_option Datatypes.id].
    destruct (PyStr.strip _) as [|c t]; cbn [PyStr.truthy]; [exact Hne0|discriminate].
Qed.

(** Either a non-empty entry reaches the script or none does. *)
Lemma entry_reaches_or_not (b : option key_field) (a : event) (stored : string) :
  (exists f entry,
     b = Some f /\ kf_value f = stored /\ ev_submit a = true /\
     ev_key a = Some entry /\ PyStr.strip entry <> EmptyString) \/
  (forall f entry,
     b = Some f -> kf_value f = stored -> ev_submit a = true ->
     ev_key a = Some entry -> PyStr.strip entry = EmptyString).
Proof.
  destruct b as [f|]; [|right; discriminate].
  destruct (String.eqb_spec (kf_value f) stored) as [Hv|Hv];
    [|right; intros ? ? [= <-]; contradiction].
  destruct (ev_submit a); [|right; discriminate].
  destruct (ev_key a) as [x|]; [|right; discriminate].
  destruct (PyStr.strip x) as [|c t] eqn:Hx.
  - right. now intros ? ? _ _ _ [= <-].
  - left. exists f, x. rewrite Hx. now repeat split.
Qed.

(** X7. Once the session remembers a non-empty API key, it remembers a
    non-empty key after any further actions of the user, and every later
    request carries a non-empty key: the remembered one, or else the entry,
    trimmed, that the user has sent with "Get Data" from a field drawn with
    the remembered key.  The demo key is no longer fallen back to. *)
Theorem user_key_sticks e acts0 acts1 a k submitted p :
  let bs0 := visits e acts0 page_opened in
  let bs := visits e acts1 bs0 in
  user_registrationkey bs0.2 = Some k ->
  k <> EmptyString ->
  result (collect_request e (received bs.1 bs.2 a) bs.2) = inr (submitted, p) ->
  exists k',
    user_registrationkey bs.2 = Some k' /\
    k' <> EmptyString /\
    p_registrationkey p <> EmptyString /\
    (p_registrationkey p = k' \/
     exists f entry,
       bs.1 = Some f /\ kf_value f = k' /\ ev_submit a = true /\
       ev_key a = Some entry /\ p_registrationkey p = PyStr.strip entry).
Proof.
  intros bs0 bs Hk Hne Hr.
  destruct (visits_key_kept e acts1 bs0) as (k' & Hk' & Hne'); [now exists k|].
  fold bs in Hk'. exists k'. split; [exact Hk'|]. split; [exact Hne'|].
  destruct (page_opened_invariant e (acts0 ++ acts1)) as [Hf Ht].
  rewrite visits_app in Hf, Ht. fold bs0 in Hf, Ht. fold bs in Hf, Ht.
  destruct (request_key _ _ _ _ _ Hr) as [Hkey _].
  rewrite received_key, Hk' in Hkey. cbn [option.from_option Datatypes.id] in Hkey.
  destruct bs as [b s]. cbn [fst snd] in *.
  destruct (entry_reaches_or_not b a k') as [(f & x & -> & Hv & Hsub & Hx & Hxne)|Hnone].
  - assert (Hp : p_registrationkey p = PyStr.strip x).
    { rewrite Hkey. unfold text_input_field, entry.
      rewrite Hv, String.eqb_refl, Hsub, Hx. cbn [kf_text option.from_option Datatypes.id].
      unfold key_read, PyStr.or_else. apply truthy_spec in Hxne. now rewrite !Hxne. }
    split; [now rewrite Hp|]. right. exists f, x. now repeat split.
  - pose proof (no_entry_read b s a Hf Ht) as Hread. cbv zeta in Hread.
    rewrite Hk' in Hread. cbn [option.from_option Datatypes.id] in Hread.
    rewrite (Hread Hnone) in Hkey. unfold PyStr.or_else in Hkey.
    apply truthy_spec in Hne'. rewrite Hne' in Hkey. apply truthy_spec in Hne'.
    split; [now rewrite Hkey|now left].
Qed.

Lemma user_key_sticks_witness :
  user_registrationkey
    (visits Sample.process [Sample.look Sample.june1; typing " MYKEY " true]
       page_opened).2 = Some "MYKEY" /\
  exists k',
    user_registrationkey
      (visits Sample.process [Sample.look Sample.june1]
         (visits Sample.process [Sample.look Sample.june1; typing " MYKEY " true]
            page_opened)).2
    = Some k' /\
    k' <> EmptyString.
Proof.
  assert (Hk : user_registrationkey
                 (visits Sample.process
                    [Sample.look Sample.june1; typing " MYKEY " true]
                    page_opened).2 = Some "MYKEY") by (vm_compute; reflexivity).
  split; [exact Hk|].
  destruct (user_key_sticks Sample.process
              [Sample.look Sample.june1; typing " MYKEY " true]
              [Sample.look Sample.june1] (typing "" true) "MYKEY" true
              {| p_seriesids := ["CES0000000001"]; p_startyear := 2019;
                 p_endyear := 2024; p_registrationkey := "MYKEY";
                 p_survey_name := "Employment"; p_survey := "CE" |})
    as (k' & Hk' & Hne' & _).
  - exact Hk.
  - discriminate.
  - vm_compute. reflexivity.
  - exists k'. split; [exact Hk'|exact Hne'].
Defined.

(** ** The series picklist *)

Lemma before_first_clean c s : PyStr.contains c (before_first c s) = false.
Proof.
  induction s as [|x s IH]; [reflexivity|].
  cbn [before_first]. destruct (Ascii.eqb x c) eqn:Hx; [reflexivity|].
  cbn [PyStr.contains]. now rewrite Hx, IH.
Qed.

Lemma NoDup_fmap_through {A B C} (f : A -> B) (g : A -> C) (h : B -> C) (l : list A) :
  (forall x, x ∈ l -> h (f x) = g x) -> NoDup (g <$> l) -> NoDup (f <$> l).
Proof.
  induction l as [|a l IH]; intros Hh Hg; [constructor|].
  cbn [fmap list_fmap] in Hg |- *. apply NoDup_cons in Hg as [Hout Hg].
  apply NoDup_cons. split.
  - intros Hin. apply Hout. apply list_elem_of_fmap in Hin as (b & Hab & Hb).
    apply list_elem_of_fmap. exists b. split; [|exact Hb].
    rewrite <- (Hh a), <- (Hh b), Hab; [reflexivity|now right|now left].
  - apply IH; [|exact Hg]. intros x Hx. apply Hh. now right.
Qed.

(** X8. The picklist has one entry per series, in the order of the series
    list.  Splitting an entry at the first colon gives the series id back
    exactly when the id holds no colon; and when the ids hold no colon and
    are pairwise distinct, so are the entries, whatever the titles. *)
Theorem picklist_entries metadata :
  let picklist := prepare_series_picklist metadata in
  List.length picklist = List.length (series metadata) /\
  (forall i, picklist !! i = entry_of <$> series metadata !! i) /\
  (forall x : series_t,
     raw_series_id (entry_of x) = Some (id x) <-> PyStr.contains ":" (id x) = false) /\
  (Forall (fun x => PyStr.contains ":" (id x) = false) (series metadata) ->
   NoDup (id <$> series metadata) -> NoDup picklist).
Proof.
  intros picklist. subst picklist. rewrite prepare_series_picklist_entries.
  split; [apply length_fmap|]. split; [intros i; apply list_lookup_fmap|].
  assert (Hid : forall y : series_t, PyStr.contains ":" (id y) = false ->
                  before_first ":" (entry_of y) = id y).
  { intros y Hy. unfold entry_of. now apply before_first_app. }
  split.
  - intros x. rewrite raw_series_id_spec. split.
    + intros [= Hx]. rewrite <- Hx. apply before_first_clean.
    + intros Hx. f_equal. now apply Hid.
  - intros Hclean Hdistinct.
    apply (NoDup_fmap_through entry_of id (before_first ":")); [|exact Hdistinct].
    intros x Hx. apply Hid. rewrite Forall_forall in Hclean. now apply Hclean.
Qed.

Lemma picklist_entries_witness :
  Forall (fun x => PyStr.contains ":" (id x) = false) (series Sample.ce) /\
  NoDup (id <$> series Sample.ce) /\
  NoDup (prepare_series_picklist Sample.ce).
Proof.
  assert (Hclean : Forall (fun x => PyStr.contains ":" (id x) = false)
                     (series Sample.ce)) by (repeat constructor).
  assert (Hdistinct : NoDup (id <$> series Sample.ce)).
  { apply NoDup_ListNoDup. repeat constructor; cbn; intuition discriminate. }
  split; [exact Hclean|]. split; [exact Hdistinct|].
  destruct (picklist_entries Sample.ce) as (_ & _ & _ & H).
  exact (H Hclean Hdistinct).
Defined.

(** ** What reaches the client *)

(** X9. A multi-select emptied by the user is not validated: when the form
    is then submitted and the execution completes, the client was asked for
    an empty list of series and that empty list is stored with the request. *)
Theorem empty_selection_is_sent e ev s :
  ev_submit ev = true ->
  ev_selected ev = Some [] ->
  result (main e ev s) = inr tt ->
  exists p data log,
    p_seriesids p = [] /\
    get_bls_data ev [] (p_startyear p) (p_endyear p) (p_registrationkey p)
    = Some (data, log) /\
    stored_results (final (main e ev s)) = (Some data, Some log, Some p).
Proof.
  intros Hsub Hsel Hres.
  pose proof (main_stored_results e ev s) as Hstored. unfold fetched in Hstored.
  rewrite main_run in Hres. cbv zeta in Hres.
  destruct (result (collect_request e ev s)) as [err|[submitted p]] eqn:Hc;
    [discriminate Hres|].
  pose proof (collect_request_submitted _ _ _ _ _ Hc) as Hs.
  rewrite Hsub in Hs. subst submitted.
  assert (Hids : p_seriesids p = []).
  { apply collect_request_completes in Hc
      as (datasets & metadata & _ & _ & _ & _ & Hq & _).
    destruct (prepare_series_picklist metadata) as [|first rest].
    - rewrite query_builder_no_series in Hq. discriminate Hq.
    - rewrite query_builder_run, Hsel in Hq. cbn [result] in Hq.
      injection Hq as _ _ _ _ Hq. now rewrite <- Hq. }
  rewrite handle_submission_run in Hres.
  destruct (get_bls_data ev _ _ _ _) as [[data log]|] eqn:Hapi;
    [|discriminate Hres].
  exists p, data, log. rewrite Hids in Hapi. now repeat split.
Qed.

Lemma empty_selection_is_sent_witness :
  exists p data log,
    p_seriesids p = [] /\
    stored_results
      (final (main Sample.process
                {| ev_survey := None; ev_key := None; ev_years := None;
                   ev_selected := Some []; ev_submit := true;
                   get_bls_data := Sample.answering (Frame Pandas.new) Sample.message;
                   today := Sample.june1 |}
                fresh_session))
    = (Some data, Some log, Some p).
Proof.
  destruct (empty_selection_is_sent Sample.process
              {| ev_survey := None; ev_key := None; ev_years := None;
                 ev_selected := Some []; ev_submit := true;
                 get_bls_data := Sample.answering (Frame Pandas.new) Sample.message;
                 today := Sample.june1 |}
              fresh_session)
    as (p & data & log & Hids & _ & Hstored).
  - reflexivity.
  - reflexivity.
  - vm_compute. reflexivity.
  - exists p, data, log. split; [exact Hids|exact Hstored].
Defined.

(** X10. When the client answers a submission with something that is not
    a table, the answer is stored and the flag raised, but the result
    presenter is skipped altogether: no result element is drawn, not even
    the log. *)
Theorem non_table_answer e ev s p other log :
  (forall df, other <> Frame df) ->
  result (collect_request e ev s) = inr (true, p) ->
  get_bls_data ev (p_seriesids p) (p_startyear p) (p_endyear p)
    (p_registrationkey p) = Some (other, log) ->
  let r := main e ev s in
  result r = inr tt /\
  no_result_element (page r) /\
  stored_results (final r) = (Some other, Some log, Some p) /\
  show_balloons (final r) = Some true.
Proof.
  intros Hother Hc Hapi r. subst r. rewrite main_run. cbv zeta. rewrite Hc.
  rewrite handle_submission_run, Hapi. cbn [final page result].
  rewrite display_results_run.
  cbn [bls_data bls_params set_show_balloons set_bls_params set_bls_log set_bls_data].
  destruct other as [df|]; [now destruct (Hother df)|].
  cbn [final page result].
  destruct (quiet_collect_request e ev s) as [_ Hquiet].
  split; [reflexivity|]. split; [|now split].
  rewrite app_nil_r. apply Forall_app. split; [exact Hquiet|]. repeat constructor.
Qed.

Lemma non_table_answer_witness :
  result (main Sample.process (Sample.press NotAFrame Sample.message Sample.june1)
            fresh_session) = inr tt /\
  no_result_element
    (page (main Sample.process (Sample.press NotAFrame Sample.message Sample.june1)
             fresh_session)).
Proof.
  destruct (non_table_answer Sample.process
              (Sample.press NotAFrame Sample.message Sample.june1) fresh_session
              {| p_seriesids := ["CES0000000001"]; p_startyear := 2019;
                 p_endyear := 2024; p_registrationkey := "DEMOKEY";
                 p_survey_name := "Employment"; p_survey := "CE" |}
              NotAFrame Sample.message)
    as (Hres & Hquiet & _).
  - discriminate.
  - vm_compute. reflexivity.
  - reflexivity.
  - split; [exact Hres|exact Hquiet].
Defined.

(** ** The page of a success *)

(** X11. When an execution completes with a table and an empty log in the
    session, the page shows the success banner and the data table and no
    log table; the code-example panels are still missing when the table is
    empty, so a success without rows comes without code examples. *)
Theorem success_state_page e ev s df log :
  let r := main e ev s in
  result r = inr tt ->
  bls_data (final r) = Some (Frame df) ->
  bls_log (final r) = Some log ->
  Pandas.is_empty log = true ->
  SuccessBanner ∈ page r /\
  DataTable (Frame df) ∈ page r /\
  (forall l, LogTable l ∉ page r) /\
  ((exists c, CodeData c ∈ page r) <-> Pandas.is_empty df = false).
Proof.
  intros r Hres Hdata Hlog Hempty.
  destruct (main_presented e ev s df Hres Hdata)
    as (pre & s2 & p & Hpre & _ & _ & Hl & _ & _ & _ & Hpage).
  fold r in Hl, Hpage. rewrite Hl, Hlog in Hpage.
  cbv beta iota delta [option.from_option Datatypes.id] in Hpage.
  assert (Hin : forall x, result_element x = true ->
                  x ∈ page r <->
                  x ∈ output_page ev df log (p_survey p)
                        (default false (show_balloons s2)) \/
                  x ∈ code_page e df p).
  { intros x Hx. rewrite Hpage.
    rewrite (result_element_drawn x pre _ Hpre Hx). apply elem_of_app. }
  clear Hpage.
  assert (Hout : forall x,
            x ∈ [ SuccessBanner; Heading "Output:"; DataTable (Frame df);
                  DownloadButton (Pandas.to_csv false df)
                    (strftime_Ymd (today ev) +:+ " " +:+ p_survey p +:+ ".csv")
                    "text/csv" ] ->
            x ∈ output_page ev df log (p_survey p)
                  (default false (show_balloons s2))).
  { intros x Hx. unfold output_page. rewrite Hempty. apply elem_of_app. now right. }
  split; [apply Hin; [reflexivity|]; left; apply Hout, list_elem_of_here|].
  split; [apply Hin; [reflexivity|]; left; apply Hout;
          do 2 apply list_elem_of_further; apply list_elem_of_here|].
  split.
  - intros l H. apply (proj1 (Hin (LogTable l) eq_refl)) in H as [H|H].
    + apply in_output_page in H.
      destruct H as [[H _]|[_ [[_ H]|[H|[H|[H|H]]]]]]; [congruence|discriminate H..].
    + apply in_code_page in H as [_ H]. cbv zeta in H.
      destruct H as [H|[H|[H|H]]]; discriminate H.
  - split.
    + intros [c H]. apply (proj1 (Hin (CodeData c) eq_refl)) in H as [H|H].
      * apply in_output_page in H.
        destruct H as [[_ H]|[_ [[_ H]|[H|[H|[H|H]]]]]]; discriminate H.
      * now apply in_code_page in H as [H _].
    + intros Hdf. eexists. apply Hin; [reflexivity|]. right.
      unfold code_page. rewrite Hdf. apply list_elem_of_further, list_elem_of_here.
Qed.

Lemma success_state_page_witness :
  result (main Sample.process
            (Sample.press (Frame {| Pandas.columns := ["series_id"; "value"];
                                    Pandas.rows := [] |})
               Pandas.new Sample.june1)
            fresh_session) = inr tt /\
  SuccessBanner
  ∈ page (main Sample.process
            (Sample.press (Frame {| Pandas.columns := ["series_id"; "value"];
                                    Pandas.rows := [] |})
               Pandas.new Sample.june1)
            fresh_session) /\
  ~ (exists c,
       CodeData c
       ∈ page (main Sample.process
                 (Sample.press (Frame {| Pandas.columns := ["series_id"; "value"];
                                         Pandas.rows := [] |})
                    Pandas.new Sample.june1)
                 fresh_session)).
Proof.
  destruct (success_state_page Sample.process
              (Sample.press (Frame {| Pandas.columns := ["series_id"; "value"];
                                      Pandas.rows := [] |})
                 Pandas.new Sample.june1)
              fresh_session
              {| Pandas.columns := ["series_id"; "value"]; Pandas.rows := [] |}
              Pandas.new)
    as (Hbanner & _ & _ & Hcode).
  - vm_compute. reflexivity.
  - vm_compute. reflexivity.
  - vm_compute. reflexivity.
  - reflexivity.
  - split; [vm_compute; reflexivity|]. split; [exact Hbanner|].
    intros Hc. apply Hcode in Hc. discriminate Hc.
Defined.



(** ** The data preview *)

Lemma filter_all {A} (P : A -> Prop) `{forall x, Decision (P x)} (l : list A) :
  Forall P l -> filter P l = l.
Proof.
  induction 1 as [|x l Hx _ IH]; [reflexivity|].
  rewrite filter_cons_True by assumption. now rewrite IH.
Qed.

Lemma index_of_None c cs : c ∉ cs -> Pandas.index_of c cs = None.
Proof.
  induction cs as [|x cs IH]; [reflexivity|]. intros Hc.
  apply not_elem_of_cons in Hc as [Hx Hc]. cbn [Pandas.index_of].
  destruct (String.eqb_spec x c) as [->|_]; [congruence|].
  now rewrite IH.
Qed.

Lemma index_of_Some c cs :
  NoDup cs -> c ∈ cs ->
  exists i, Pandas.index_of c cs = Some i /\
            Pandas.remove_nth i cs = filter (fun x => x <> c) cs.
Proof.
  induction cs as [|x cs IH]; intros Hnd Hc; [now apply elem_of_nil in Hc|].
  apply NoDup_cons in Hnd as [Hx Hnd]. cbn [Pandas.index_of].
  destruct (String.eqb_spec x c) as [->|Hne].
  - exists 0%nat. split; [reflexivity|]. cbn [Pandas.remove_nth].
    rewrite filter_cons_False by (intros H; now apply H).
    symmetry. apply filter_all. apply Forall_forall. intros y Hy ->. now apply Hx.
  - apply elem_of_cons in Hc as [->|Hc]; [congruence|].
    destruct (IH Hnd Hc) as (i & -> & Hi). exists (S i).
    split; [reflexivity|]. cbn [Pandas.remove_nth].
    rewrite filter_cons_True by assumption. now rewrite Hi.
Qed.

Lemma drop_column_None c df :
  c ∉ Pandas.columns df -> Pandas.drop_column c df = None.
Proof. intros Hc. unfold Pandas.drop_column. now rewrite index_of_None. Qed.

Lemma drop_column_Some c df :
  NoDup (Pandas.columns df) -> c ∈ Pandas.columns df ->
  exists df', Pandas.drop_column c df = Some df' /\
              Pandas.columns df' = filter (fun x => x <> c) (Pandas.columns df) /\
              List.length (Pandas.rows df') = List.length (Pandas.rows df).
Proof.
  intros Hnd Hc. destruct (index_of_Some c _ Hnd Hc) as (i & Hi & Hrm).
  unfold Pandas.drop_column. rewrite Hi. cbn [mbind option_bind].
  eexists. split; [reflexivity|]. cbn [Pandas.columns Pandas.rows].
  split; [exact Hrm|apply length_fmap].
Qed.

Lemma set_index_None c df :
  c ∉ Pandas.columns df -> Pandas.set_index c df = None.
Proof. intros Hc. unfold Pandas.set_index. now rewrite index_of_None. Qed.

Lemma set_index_Some c df :
  NoDup (Pandas.columns df) -> c ∈ Pandas.columns df ->
  exists df', Pandas.set_index c df = Some df' /\
              Pandas.columns df' = c :: filter (fun x => x <> c) (Pandas.columns df) /\
              List.length (Pandas.rows df') = List.length (Pandas.rows df).
Proof.
  intros Hnd Hc. destruct (index_of_Some c _ Hnd Hc) as (i & Hi & Hrm).
  unfold Pandas.set_index. rewrite Hi. cbn [mbind option_bind].
  eexists. split; [reflexivity|]. cbn [Pandas.columns Pandas.rows].
  split; [now rewrite Hrm|apply length_fmap].
Qed.

(** The columns the data preview shows after the row label. *)
Definition preview_columns (cols : list string) : list string :=
  filter (fun x => x <> "series_id")
    (filter (fun x => x <> "survey_abbreviation")
       (filter (fun x => x <> "survey_name") cols)).

(** X13. For a preview table with distinct column names, the data preview
    is drawn exactly when the table has the three columns [survey_name],
    [survey_abbreviation] and [series_id]: the table shown then has
    [series_id] as row label in front, the other columns in their order
    without the two survey columns, and as many rows as the preview.  When
    one of the three is missing, [KeyError] is raised after the heading and
    no table is drawn.  The session is left as it was. *)
Theorem data_preview_shown metadata s :
  let cols := Pandas.columns (data_preview metadata) in
  let r := display_data_preview metadata s in
  NoDup cols ->
  final r = s /\
  (("survey_name" ∈ cols /\ "survey_abbreviation" ∈ cols /\ "series_id" ∈ cols) ->
   exists t,
     page r = [Heading "Data Preview:"; Dataframe t] /\ result r = inr tt /\
     Pandas.columns t = "series_id" :: preview_columns cols /\
     List.length (Pandas.rows t) = List.length (Pandas.rows (data_preview metadata))) /\
  (~ ("survey_name" ∈ cols /\ "survey_abbreviation" ∈ cols /\ "series_id" ∈ cols) ->
   page r = [Heading "Data Preview:"] /\ result r = inl KeyError).
Proof.
  intros cols r Hnd. subst r. unfold display_data_preview.
  set (df := data_preview metadata) in *.
  assert (Hrun : forall o : option Pandas.DataFrame,
            (emit (Heading "Data Preview:");;
             dataset_preview ← from_option KeyError
               (Pandas.drop ["survey_name"; "survey_abbreviation"] df);
             dataset_preview ← from_option KeyError
               (Pandas.set_index "series_id" dataset_preview);
             emit (Dataframe dataset_preview)) s
            = match Pandas.drop ["survey_name"; "survey_abbreviation"] df
                    ≫= Pandas.set_index "series_id" with
              | Some t => Outcome s [Heading "Data Preview:"; Dataframe t] (inr tt)
              | None => Outcome s [Heading "Data Preview:"] (inl KeyError)
              end).
  { intros _. destruct (Pandas.drop _ df) as [df1|]; cbn [mbind option_bind].
    - destruct (Pandas.set_index "series_id" df1) as [t|] eqn:E;
        apply run_emit, run_ret; rewrite E; reflexivity.
    - reflexivity. }
  rewrite (Hrun None). clear Hrun. cbn [Pandas.drop].
  assert (Hfinal : forall (o : option Pandas.DataFrame) a b,
            final (match o with
                   | Some t => Outcome (A:=unit) s a (inr tt)
                   | None => Outcome s b (inl KeyError)
                   end) = s) by (intros [t|]; reflexivity).
  split; [destruct (_ ≫= _); reflexivity|]. clear Hfinal.
  destruct (decide ("survey_name" ∈ cols)) as [Hn|Hn].
  2:{ rewrite drop_column_None by assumption. split; [tauto|now split]. }
  destruct (drop_column_Some "survey_name" df Hnd Hn) as (df1 & -> & Hc1 & Hr1).
  cbn [mbind option_bind].
  assert (Hnd1 : NoDup (Pandas.columns df1)) by (rewrite Hc1; now apply NoDup_filter).
  destruct (decide ("survey_abbreviation" ∈ cols)) as [Ha|Ha].
  2:{ rewrite drop_column_None; [split; [tauto|now split]|].
      rewrite Hc1. intros H. apply list_elem_of_filter in H. tauto. }
  assert (Ha1 : "survey_abbreviation" ∈ Pandas.columns df1).
  { rewrite Hc1. apply list_elem_of_filter. split; [discriminate|exact Ha]. }
  destruct (drop_column_Some "survey_abbreviation" df1 Hnd1 Ha1)
    as (df2 & -> & Hc2 & Hr2).
  cbn [mbind option_bind].
  assert (Hnd2 : NoDup (Pandas.columns df2)) by (rewrite Hc2; now apply NoDup_filter).
  destruct (decide ("series_id" ∈ cols)) as [Hs|Hs].
  2:{ rewrite set_index_None; [split; [tauto|now split]|].
      rewrite Hc2, Hc1. intros H.
      apply list_elem_of_filter in H as [_ H]. apply list_elem_of_filter in H. tauto. }
  assert (Hs2 : "series_id" ∈ Pandas.columns df2).
  { rewrite Hc2, Hc1. apply list_elem_of_filter. split; [discriminate|].
    apply list_elem_of_filter. split; [discriminate|exact Hs]. }
  destruct (set_index_Some "series_id" df2 Hnd2 Hs2) as (t & -> & Hct & Hrt).
  split; [|tauto]. intros _. exists t.
  split; [reflexivity|]. split; [reflexivity|]. split.
  - rewrite Hct, Hc2, Hc1. reflexivity.
  - congruence.
Qed.

Lemma data_preview_shown_witness :
  NoDup (Pandas.columns (data_preview Sample.ce)) /\
  exists t,
    page (display_data_preview Sample.ce fresh_session)
    = [Heading "Data Preview:"; Dataframe t] /\
    Pandas.columns t = ["series_id"; "value"].
Proof.
  assert (Hnd : NoDup (Pandas.columns (data_preview Sample.ce))).
  { apply NoDup_ListNoDup. repeat constructor; cbn; intuition discriminate. }
  split; [exact Hnd|].
  destruct (data_preview_shown Sample.ce fresh_session Hnd) as (_ & Hshown & _).
  destruct Hshown as (t & Hpage & _ & Hcols & _).
  - cbn. repeat split;
      repeat first [apply list_elem_of_here | apply list_elem_of_further].
  - exists t. split; [exact Hpage|]. rewrite Hcols. vm_compute. reflexivity.
Defined.
